(** * The dashboard root page ([src/app/page.tsx])

    A shallow embedding of the root page component of the administration
    dashboard: the cookie reader, the role formatter, the token-decoding
    effect, the reference-data effect, the page router and its URL update.

    Conventions of the embedding.
    - A JavaScript string is its sequence of UTF-8 bytes, a [string] of the
      Standard Library; a surrogate that is not part of a pair is the three
      bytes of its generalized UTF-8 form, [ED A0..BF 80..BF].
      [toLowerCase] lowers the ASCII letters; bytes of multi-byte
      characters are left as they are.  The query-string parser keeps the
      bytes it percent-decodes; the browser's parser replaces the ones that
      are not UTF-8 by U+FFFD.
    - A value of type [any] (the decoded token payload) is a [JsValue].
    - React state is a record, [World], that also carries the browser state
      the component reads and writes (cookie jar, URL query, history) and the
      log of calls into collaborating modules.  A closure's captured values
      are explicit arguments of the function that models it.
    - Code that may throw runs in the monad [Eff]: a run either completes or
      throws, and in both cases yields the world with the setter calls made
      so far.  React renders the cells of a run that completes only: an
      exception that leaves an effect unmounts the tree ([rendered],
      [screen]). *)

From Stdlib Require Import String Ascii List NArith ZArith QArith Bool Lia.
From stdpp Require Import base option gmap strings list.

Set Warnings "-register-all".

(* ===================================================================== *)
(** * JavaScript strings and values *)
(* ===================================================================== *)

Module Js.

(** ** Strings *)

Definition is_upper (c : ascii) : bool :=
  let n := N_of_ascii c in ((65 <=? n) && (n <=? 90))%N.

Definition lower_char (c : ascii) : ascii :=
  if is_upper c then ascii_of_N (N_of_ascii c + 32) else c.

(** [String.prototype.toLowerCase] on the ASCII letters.  The letters
    outside ASCII, whose bytes are left as they are, lower to no string of
    ASCII letters that occurs in a role name. *)
Fixpoint toLowerCase (s : string) : string :=
  match s with
  | EmptyString => EmptyString
  | String c s' => String (lower_char c) (toLowerCase s')
  end.

(** [String.prototype.startsWith]. *)
Definition startsWith (s pre : string) : bool := String.prefix pre s.

(** [s.split(sep)] for a non-empty separator [sep]: the pieces between
    the occurrences of [sep], scanned from the left without overlap.
    [skip] counts the bytes of a matched separator still to be dropped. *)
Fixpoint split_from (sep : string) (skip : nat) (s : string) : list string :=
  match s with
  | EmptyString => [EmptyString]
  | String c s' =>
      match skip with
      | S k => split_from sep k s'
      | O =>
          if String.prefix sep s
          then EmptyString :: split_from sep (String.length sep - 1) s'
          else match split_from sep 0 s' with
               | piece :: pieces => String c piece :: pieces
               | [] => [String c EmptyString]
               end
      end
  end.

Definition split (sep s : string) : list string := split_from sep 0 s.

(** Truthiness of a string: [""] is the only falsy string. *)
Definition nonempty (s : string) : bool :=
  match s with EmptyString => false | String _ _ => true end.

(** ** Values of type [any] *)

(** The values [JSON.parse] can produce, and [undefined] for a property
    that is missing.  A number carries its value as a rational. *)
Inductive JsValue : Type :=
| JUndefined
| JNull
| JBool (b : bool)
| JNum (q : Q)
| JStr (s : string)
| JArr (items : list JsValue)
| JObj (fields : gmap string JsValue).

(** [ToBoolean]: what [if (v)], [!v] and [a && b] test. *)
Definition truthy (v : JsValue) : bool :=
  match v with
  | JUndefined | JNull => false
  | JBool b => b
  | JNum q => negb (Qnum q =? 0)%Z
  | JStr s => nonempty s
  | JArr _ | JObj _ => true
  end.

(** [v == null]: [v] is [null] or [undefined]. *)
Definition nullish (v : JsValue) : bool :=
  match v with
  | JUndefined | JNull => true
  | _ => false
  end.

(** [v.name] for a property name that is neither ["length"] nor an index
    nor a method of a prototype (every name this page reads is such a
    name): the field of an object, [undefined] on anything else. *)
Definition get (v : JsValue) (name : string) : JsValue :=
  match v with
  | JObj fields => default JUndefined (fields !! name)
  | _ => JUndefined
  end.

(** The result of [v == s] when the conversion of [v] to a primitive
    succeeds, for a non-empty string [s] without a comma that is not the
    text of a number, a boolean or ["[object Object]"]: a string is
    compared as it is, an array through its [toString], which is its only
    element's when it has one element. *)
Fixpoint sameAsString (v : JsValue) (s : string) : bool :=
  match v with
  | JStr t => String.eqb t s
  | JArr [item] => sameAsString item s
  | _ => false
  end.

(** A value of TypeScript type [string | null]. *)
Definition truthy_opt (o : option string) : bool :=
  match o with
  | Some s => nonempty s
  | None => false
  end.

(** ** Exceptions *)

Inductive Exn : Type :=
| TypeError            (* calling a method a value does not have *)
| InvalidTokenError.   (* thrown by the token decoder *)

Inductive Try (A : Type) : Type :=
| Returns (a : A)
| Raises (e : Exn).
Arguments Returns {A} a.
Arguments Raises {A} e.

(** ** Conversions to a string *)

(** Whether the conversion of [v] to a string throws.  No value made by
    [JSON.parse] is callable, so an object that has a [toString] of its own
    hides [Object.prototype.toString] behind a value that cannot be called;
    its [valueOf], own or inherited, gives no primitive either, and the
    conversion throws a [TypeError].  An array is converted through [join],
    which converts each element other than [null] and [undefined]. *)
Fixpoint toStringThrows (v : JsValue) : bool :=
  match v with
  | JObj fields =>
      match fields !! "toString" with
      | Some _ => true
      | None => false
      end
  | JArr items => existsb toStringThrows items
  | _ => false
  end.

(** [`${v}`] in a template literal whose text goes to the console only:
    the conversion of [v] to a string, which may throw. *)
Definition interpolate (v : JsValue) : Try unit :=
  if toStringThrows v then Raises TypeError else Returns tt.

(** [v == s], for [s] as in [sameAsString]: an object or an array is first
    made a primitive, through [valueOf] and then [toString], which throws
    when the conversion to a string does. *)
Definition looseEqString (v : JsValue) (s : string) : Try bool :=
  if toStringThrows v then Raises TypeError else Returns (sameAsString v s).

End Js.

Import Js.

(* ===================================================================== *)
(** * The role formatter *)
(* ===================================================================== *)

(** The [switch] of [formatUserRole], on the lowered role. *)
Definition roleLabel (lowered : string) : string :=
  if String.eqb lowered "app_owner" then "App Owner"
  else if String.eqb lowered "demo_app_owner" then "App Owner"
  else if String.eqb lowered "app_admin" then "Admin"
  else if String.eqb lowered "proxy_admin" then "Admin"
  else if String.eqb lowered "proxy_admin_viewer" then "Admin Viewer"
  else if String.eqb lowered "org_admin" then "Org Admin"
  else if String.eqb lowered "internal_user" then "Internal User"
  else if String.eqb lowered "internal_viewer" then "Internal Viewer"
  else if String.eqb lowered "app_user" then "App User"
  else "Unknown Role".

(** [formatUserRole(userRole)].  The parameter is declared a [string]; the
    one call site passes a field of the decoded payload, so the argument is
    any value.  A falsy argument gives ["Undefined Role"]; a truthy value
    that is not a string has no [toLowerCase] and the call throws. *)
Definition formatUserRole (userRole : JsValue) : Try string :=
  if negb (truthy userRole) then Returns "Undefined Role"
  else match userRole with
       | JStr s => Returns (roleLabel (toLowerCase s))
       | _ => Raises TypeError
       end.

(** The role table as the specification lists it. *)
Definition knownRoles : list (string * string) :=
  [ ("app_owner", "App Owner");
    ("demo_app_owner", "App Owner");
    ("app_admin", "Admin");
    ("proxy_admin", "Admin");
    ("proxy_admin_viewer", "Admin Viewer");
    ("org_admin", "Org Admin");
    ("internal_user", "Internal User");
    ("internal_viewer", "Internal Viewer");
    ("app_user", "App User") ].

(* ===================================================================== *)
(** * URL query strings: [URLSearchParams] *)
(* ===================================================================== *)

(** The browser's [URLSearchParams]: an ordered list of name-value pairs in
    which a name may occur more than once, with the
    [application/x-www-form-urlencoded] serializer and parser. *)
Module URLSearchParams.

Definition t : Type := list (string * string).

(** [params.get(name)]: the value of the first pair named [name], or
    [null]. *)
Fixpoint get (name : string) (params : t) : option string :=
  match params with
  | [] => None
  | (k, v) :: rest => if String.eqb k name then Some v else get name rest
  end.

Definition named (name : string) (p : string * string) : bool :=
  String.eqb (fst p) name.

(** [params.set(name, value)]: the first pair named [name] takes the
    value and the other pairs of that name are removed; without such a
    pair, one is appended. *)
Fixpoint set (name value : string) (params : t) : t :=
  match params with
  | [] => [(name, value)]
  | (k, v) :: rest =>
      if String.eqb k name
      then (k, value) :: List.filter (fun p => negb (named name p)) rest
      else (k, v) :: set name value rest
  end.

Definition in_range (lo hi : N) (c : ascii) : bool :=
  let n := N_of_ascii c in ((lo <=? n) && (n <=? hi))%N.

(** U+FFFD, the replacement character: [EF BF BD]. *)
Definition replacementCharacter : string :=
  String "239" (String "191" (String "189" EmptyString)).

(** The conversion the binding applies to a string argument of a method
    of [URLSearchParams]: every surrogate that is not part of a pair
    becomes U+FFFD.  In generalized UTF-8 such a surrogate is the lead byte
    [ED] followed by a byte in [A0..BF] and a continuation byte. *)
Fixpoint toUSVString (s : string) : string :=
  match s with
  | EmptyString => EmptyString
  | String c rest =>
      let kept := String c (toUSVString rest) in
      if Ascii.eqb c "237" then
        match rest with
        | String c1 (String c2 rest') =>
            if in_range 160 191 c1 && in_range 128 191 c2
            then replacementCharacter +:+ toUSVString rest'
            else kept
        | _ => kept
        end
      else kept
  end.

(** ** Serializer *)

(** Bytes the serializer leaves as they are: ASCII alphanumerics and
    [*], [-], [.], [_]. *)
Definition unreserved (c : ascii) : bool :=
  in_range 48 57 c || in_range 65 90 c || in_range 97 122 c
  || Ascii.eqb c "*" || Ascii.eqb c "-" || Ascii.eqb c "."
  || Ascii.eqb c "_".

Definition hexDigit (n : N) : ascii :=
  if (n <? 10)%N then ascii_of_N (48 + n) else ascii_of_N (55 + n).

Definition encodeByte (c : ascii) : string :=
  if unreserved c then String c EmptyString
  else if Ascii.eqb c " " then "+"
  else String "%" (String (hexDigit (N_of_ascii c / 16))
                     (String (hexDigit (N_of_ascii c mod 16)) EmptyString)).

Fixpoint encode (s : string) : string :=
  match s with
  | EmptyString => EmptyString
  | String c s' => encodeByte c +:+ encode s'
  end.

Definition encodePair (p : string * string) : string :=
  encode (fst p) +:+ "=" +:+ encode (snd p).

Fixpoint joinAmp (pieces : list string) : string :=
  match pieces with
  | [] => EmptyString
  | [piece] => piece
  | piece :: more => piece +:+ "&" +:+ joinAmp more
  end.

(** [params.toString()]. *)
Definition toString (params : t) : string := joinAmp (map encodePair params).

(** ** Parser *)

Definition hexValue (c : ascii) : option N :=
  let n := N_of_ascii c in
  if in_range 48 57 c then Some (n - 48)%N
  else if in_range 65 70 c then Some (n - 55)%N
  else if in_range 97 102 c then Some (n - 87)%N
  else None.

(** Percent-decoding: [%] followed by two hex digits is one byte, any
    other byte stands for itself. *)
Fixpoint percentDecode (s : string) : string :=
  match s with
  | EmptyString => EmptyString
  | String c rest =>
      let literal := String c (percentDecode rest) in
      if Ascii.eqb c "%" then
        match rest with
        | String h (String l rest') =>
            match hexValue h, hexValue l with
            | Some hi, Some lo =>
                String (ascii_of_N (16 * hi + lo)) (percentDecode rest')
            | _, _ => literal
            end
        | _ => literal
        end
      else literal
  end.

Fixpoint plusToSpace (s : string) : string :=
  match s with
  | EmptyString => EmptyString
  | String c s' =>
      String (if Ascii.eqb c "+" then " "%char else c) (plusToSpace s')
  end.

Definition decode (s : string) : string := percentDecode (plusToSpace s).

(** The bytes before the first [sep] and the bytes after it; without a
    [sep], the whole input and the empty string. *)
Fixpoint cut (sep : ascii) (s : string) : string * string :=
  match s with
  | EmptyString => (EmptyString, EmptyString)
  | String c s' =>
      if Ascii.eqb c sep then (EmptyString, s')
      else let (before, after) := cut sep s' in (String c before, after)
  end.

(** The sequences between the occurrences of the byte [sep]. *)
Fixpoint sequences (sep : ascii) (s : string) : list string :=
  match s with
  | EmptyString => [EmptyString]
  | String c s' =>
      if Ascii.eqb c sep then EmptyString :: sequences sep s'
      else match sequences sep s' with
           | piece :: pieces => String c piece :: pieces
           | [] => [String c EmptyString]
           end
  end.

Definition parsePair (piece : string) : string * string :=
  let (name, value) := cut "=" piece in (decode name, decode value).

(** The query-string parser: split on [&], skip empty sequences, cut each
    at its first [=], turn [+] into a space and percent-decode.  The
    browser then decodes each name and value as UTF-8 and puts U+FFFD for
    the bytes that are not; here the bytes are kept, which is the same on
    every query that holds the UTF-8 of scalar value strings, as the ones
    [toString] writes do. *)
Definition parse (query : string) : t :=
  map parsePair (List.filter nonempty (sequences "&" query)).

(** [lacks c s]: the byte [c] does not occur in [s]. *)
Fixpoint lacks (c : ascii) (s : string) : bool :=
  match s with
  | EmptyString => true
  | String a s' => negb (Ascii.eqb a c) && lacks c s'
  end.

End URLSearchParams.

(* ===================================================================== *)
(** * The page component: browser, state and collaborators *)
(* ===================================================================== *)

(** What the component reads from and writes to the browser. *)
Record Browser : Type := mkBrowser {
  cookie : string;          (* [document.cookie] *)
  query : string;           (* the query of the current URL, without [?] *)
  history : list string     (* the queries of the entries below it *)
}.

(** The [useState] cells that this file itself writes.  The cells [teams],
    [keys], [organizations], [userModels], [proxySettings] and [modelData]
    are written by collaborators only, through the setters handed to
    them. *)
Record State : Type := mkState {
  userRole : string;
  premiumUser : JsValue;
  disabledPersonalKeyCreation : JsValue;
  userEmail : JsValue;
  showSSOBanner : bool;
  token : option string;
  page : string;
  accessToken : JsValue
}.

(** Calls into the collaborating modules; a fetch helper also receives
    the setter of the cell it fills. *)
Inductive Call : Type :=
| FetchUserModels (userID : option string) (userRole : string)
    (accessToken : JsValue)
| FetchTeams (accessToken : JsValue) (userID : option string)
    (userRole : string)
| FetchOrganizations (accessToken : JsValue)
| SetGlobalLitellmHeaderName (name : JsValue).

Record World : Type := mkWorld {
  browser : Browser;
  state : State;
  calls : list Call         (* in the order they were made *)
}.

(** ** The effect monad *)

(** [Completed a w]: the code returned [a], and [w] holds the setter calls
    and the calls to collaborators it made.  [Threw e w]: the code threw
    [e], and [w] holds the calls it made before that. *)

Inductive Outcome (A : Type) : Type :=
| Completed (a : A) (w : World)
| Threw (e : Exn) (w : World).
Arguments Completed {A} a w.
Arguments Threw {A} e w.

Definition Eff (A : Type) : Type := World -> Outcome A.

Definition worldOf {A : Type} (o : Outcome A) : World :=
  match o with
  | Completed _ w => w
  | Threw _ w => w
  end.

Definition completed {A : Type} (o : Outcome A) : bool :=
  match o with
  | Completed _ _ => true
  | Threw _ _ => false
  end.

#[global] Instance Eff_ret : MRet Eff := fun A a w => Completed a w.

#[global] Instance Eff_bind : MBind Eff := fun A B k m w =>
  match m w with
  | Completed a w' => k a w'
  | Threw e w' => Threw e w'
  end.

(** A call that may throw. *)
Definition try {A : Type} (r : Try A) : Eff A := fun w =>
  match r with
  | Returns a => Completed a w
  | Raises e => Threw e w
  end.

Definition modifyState (f : State -> State) : Eff unit := fun w =>
  Completed tt (mkWorld (browser w) (f (state w)) (calls w)).

Definition call (c : Call) : Eff unit := fun w =>
  Completed tt (mkWorld (browser w) (state w) (calls w ++ [c])).

Definition documentCookie : Eff string := fun w =>
  Completed (cookie (browser w)) w.

(** [if (c) { body }]. *)
Definition when (c : bool) (body : Eff unit) : Eff unit :=
  if c then body else mret tt.

(** ** The state setters *)

Definition setUserRole (v : string) : Eff unit :=
  modifyState (fun s => mkState v (premiumUser s)
    (disabledPersonalKeyCreation s) (userEmail s) (showSSOBanner s)
    (token s) (page s) (accessToken s)).

Definition setPremiumUser (v : JsValue) : Eff unit :=
  modifyState (fun s => mkState (userRole s) v
    (disabledPersonalKeyCreation s) (userEmail s) (showSSOBanner s)
    (token s) (page s) (accessToken s)).

Definition setDisabledPersonalKeyCreation (v : JsValue) : Eff unit :=
  modifyState (fun s => mkState (userRole s) (premiumUser s) v
    (userEmail s) (showSSOBanner s) (token s) (page s) (accessToken s)).

Definition setUserEmail (v : JsValue) : Eff unit :=
  modifyState (fun s => mkState (userRole s) (premiumUser s)
    (disabledPersonalKeyCreation s) v (showSSOBanner s) (token s) (page s)
    (accessToken s)).

Definition setShowSSOBanner (v : bool) : Eff unit :=
  modifyState (fun s => mkState (userRole s) (premiumUser s)
    (disabledPersonalKeyCreation s) (userEmail s) v (token s) (page s)
    (accessToken s)).

Definition setToken (v : option string) : Eff unit :=
  modifyState (fun s => mkState (userRole s) (premiumUser s)
    (disabledPersonalKeyCreation s) (userEmail s) (showSSOBanner s) v
    (page s) (accessToken s)).

Definition setPage (v : string) : Eff unit :=
  modifyState (fun s => mkState (userRole s) (premiumUser s)
    (disabledPersonalKeyCreation s) (userEmail s) (showSSOBanner s)
    (token s) v (accessToken s)).

Definition setAccessToken (v : JsValue) : Eff unit :=
  modifyState (fun s => mkState (userRole s) (premiumUser s)
    (disabledPersonalKeyCreation s) (userEmail s) (showSSOBanner s)
    (token s) (page s) v).

(** [window.history.pushState(null, "", url)] for [url] a [?] followed by
    an output of the serializer, which the URL parser keeps as it is: the
    current entry goes down the history and the query becomes the new
    one.  No document is loaded. *)
Definition pushState (url : string) : Eff unit := fun w =>
  match url with
  | String "?" newQuery =>
      Completed tt
        (mkWorld (mkBrowser (cookie (browser w)) newQuery
                    (query (browser w) :: history (browser w)))
                 (state w) (calls w))
  | _ => Completed tt w
  end.

(* ===================================================================== *)
(** * The page component: its functions *)
(* ===================================================================== *)

(** [getCookie(name)], reading [document.cookie].  [None] is [null] (no
    row starts with [name=]) or [undefined]. *)
Definition getCookie (name : string) (documentCookie : string)
  : option string :=
  match List.find (fun row => startsWith row (name +:+ "="))
                  (split "; " documentCookie) with
  | Some cookieValue =>
      if nonempty cookieValue then nth_error (split "=" cookieValue) 1
      else None
  | None => None
  end.

(** [useSearchParams()]: the parameters of the current URL. *)
Definition useSearchParams (w : World) : URLSearchParams.t :=
  URLSearchParams.parse (query (browser w)).

(** The initializer of the [page] cell:
    [searchParams.get("page") || "api-keys"]. *)
Definition initialPage (searchParams : URLSearchParams.t) : string :=
  match URLSearchParams.get "page" searchParams with
  | Some p => if nonempty p then p else "api-keys"
  | None => "api-keys"
  end.

Definition initialState (searchParams : URLSearchParams.t) : State :=
  {| userRole := "";
     premiumUser := JBool false;
     disabledPersonalKeyCreation := JBool false;
     userEmail := JNull;
     showSSOBanner := true;
     token := None;
     page := initialPage searchParams;
     accessToken := JNull |}.

(** The component as first rendered in a browser [b], also after a
    reload. *)
Definition mount (b : Browser) : World :=
  {| browser := b;
     state := initialState (URLSearchParams.parse (query b));
     calls := [] |}.

(** [const userID = searchParams.get("userID")] and
    [const invitation_id = searchParams.get("invitation_id")]. *)
Definition userID (w : World) : option string :=
  URLSearchParams.get "userID" (useSearchParams w).

Definition invitation_id (w : World) : option string :=
  URLSearchParams.get "invitation_id" (useSearchParams w).

(** [updatePage(newPage)], in a render whose parameters are
    [searchParams].  [set] receives [newPage] converted to a scalar value
    string (and ["page"], which the conversion leaves as it is); [setPage]
    receives [newPage] itself. *)
Definition updatePage (searchParams : URLSearchParams.t) (newPage : string)
  : Eff unit :=
  let newSearchParams :=
    URLSearchParams.set "page" (URLSearchParams.toUSVString newPage)
      searchParams in
  pushState ("?" +:+ URLSearchParams.toString newSearchParams);;
  setPage newPage.

(** The first effect, with no dependency: it runs once, after the first
    render. *)
Definition cookieEffect : Eff unit :=
  c ← documentCookie;
  setToken (getCookie "token" c).

(** The effect on the reference data, with dependencies
    [[accessToken, userID, userRole]]. *)
Definition refDataEffect (accessToken : JsValue) (userID : option string)
    (userRole : string) : Eff unit :=
  when (truthy accessToken && truthy_opt userID && nonempty userRole)
    (call (FetchUserModels userID userRole accessToken));;
  when (truthy accessToken && truthy_opt userID && nonempty userRole)
    (call (FetchTeams accessToken userID userRole));;
  when (truthy accessToken)
    (call (FetchOrganizations accessToken)).

Section TokenDecoding.

(** [jwtDecode] of the [jwt-decode] package: the payload of the token, or
    an exception for a token it cannot decode. *)
Variable jwtDecode : string -> Try JsValue.

(** The effect that decodes the token, with dependency [[token]]; [token]
    is the cell's value in the render that scheduled the effect.  The
    branches that find no [user_email] and no [login_method] log the
    payload inside a template literal. *)
Definition decodeEffect (token : option string) : Eff unit :=
  match token with
  | None => mret tt
  | Some tok =>
      if negb (nonempty tok) then mret tt
      else
        decoded ← try (jwtDecode tok);
        when (truthy decoded) (
          setAccessToken (get decoded "key");;
          setDisabledPersonalKeyCreation
            (get decoded "disabled_non_admin_personal_key_creation");;
          when (truthy (get decoded "user_role")) (
            formattedUserRole ← try (formatUserRole (get decoded "user_role"));
            setUserRole formattedUserRole;;
            when (String.eqb formattedUserRole "Admin Viewer")
              (setPage "usage"));;
          (if truthy (get decoded "user_email")
           then setUserEmail (get decoded "user_email")
           else try (interpolate decoded));;
          (if truthy (get decoded "login_method")
           then
             usernamePassword ←
               try (looseEqString (get decoded "login_method")
                      "username_password");
             setShowSSOBanner usernamePassword
           else try (interpolate decoded));;
          when (truthy (get decoded "premium_user"))
            (setPremiumUser (get decoded "premium_user"));;
          when (truthy (get decoded "auth_header_name"))
            (call (SetGlobalLitellmHeaderName
                     (get decoded "auth_header_name"))))
  end.

(** The effects after the first render, in the order they are declared.
    Each reads the cells as that render saw them. *)
Definition firstCommit : Eff unit := fun w =>
  (cookieEffect;;
   decodeEffect (token (state w));;
   refDataEffect (accessToken (state w)) (userID w) (userRole (state w))) w.

(** The render after [token] has changed runs the decoding effect.  When
    the effect throws, the outcome carries the setter calls made before the
    throw; React renders none of them (see [rendered]). *)
Definition tokenCommit : Eff unit := fun w =>
  decodeEffect (token (state w)) w.

(** The render after one of [accessToken], [userID], [userRole] has
    changed runs the reference-data effect. *)
Definition identityCommit : Eff unit := fun w =>
  refDataEffect (accessToken (state w)) (userID w) (userRole (state w)) w.

(** Session bootstrap in a browser [b]: mount, first commit, and the
    commit that follows the arrival of the token. *)
Definition bootstrap (b : Browser) : Outcome unit :=
  (firstCommit;; tokenCommit) (mount b).

(** The bootstrap followed by the commit that loads the reference data. *)
Definition session (b : Browser) : Outcome unit :=
  (firstCommit;; tokenCommit;; identityCommit) (mount b).

End TokenDecoding.

(** ** Rendering *)

(** The feature panels, by the component that renders them. *)
Inductive Panel : Type :=
| UserDashboard | ModelDashboard | ChatUI | ViewUserDashboard | Teams
| Organizations | AdminPanel | APIRef | Settings | BudgetPanel
| GuardrailsPanel | GeneralSettings | ModelHub | CacheDashboard
| PassThroughSettings | SpendLogsTable | MCPToolsViewer | TagManagement
| NewUsagePage | Usage.

(** The chain of conditionals on [page]. *)
Definition selectPanel (page : string) : Panel :=
  if String.eqb page "api-keys" then UserDashboard
  else if String.eqb page "models" then ModelDashboard
  else if String.eqb page "llm-playground" then ChatUI
  else if String.eqb page "users" then ViewUserDashboard
  else if String.eqb page "teams" then Teams
  else if String.eqb page "organizations" then Organizations
  else if String.eqb page "admin-panel" then AdminPanel
  else if String.eqb page "api_ref" then APIRef
  else if String.eqb page "settings" then Settings
  else if String.eqb page "budgets" then BudgetPanel
  else if String.eqb page "guardrails" then GuardrailsPanel
  else if String.eqb page "general-settings" then GeneralSettings
  else if String.eqb page "model-hub" then ModelHub
  else if String.eqb page "caching" then CacheDashboard
  else if String.eqb page "pass-through-settings" then PassThroughSettings
  else if String.eqb page "logs" then SpendLogsTable
  else if String.eqb page "mcp-tools" then MCPToolsViewer
  else if String.eqb page "tag-management" then TagManagement
  else if String.eqb page "new_usage" then NewUsagePage
  else Usage.

(** What the component renders: with an [invitation_id], the user
    dashboard alone; otherwise the navigation bar, the sidebar (which
    receives [updatePage] and the current page as its selected key) and one
    panel. *)
Inductive View : Type :=
| InvitationView
| DashboardView (defaultSelectedKey : string) (panel : Panel).

Definition render (w : World) : View :=
  if truthy_opt (invitation_id w) then InvitationView
  else DashboardView (page (state w)) (selectPanel (page (state w))).

(** The sidebar is the one caller of [updatePage]; it calls it with the
    parameters of the render that mounted it. *)
Definition sidebarMounted (w : World) : bool :=
  match render w with
  | DashboardView _ _ => true
  | InvitationView => false
  end.

Definition sidebarSetPage (newPage : string) : Eff unit := fun w =>
  updatePage (useSearchParams w) newPage w.

(** ** What React shows after a commit *)

(** The world React renders after the effects of a commit have run: the one
    a completed run leaves.  An exception that leaves an effect unmounts
    the tree: the setter calls made before the throw are never rendered,
    and no cell is left to read. *)
Definition rendered (o : Outcome unit) : option World :=
  match o with
  | Completed _ w => Some w
  | Threw _ _ => None
  end.

Inductive Screen : Type :=
| Shows (v : View)
| Blank.

Definition screen (o : Outcome unit) : Screen :=
  match rendered o with
  | Some w => Shows (render w)
  | None => Blank
  end.

(** The page identifiers the chain knows, with their panels, as the
    specification counts them. *)
Definition knownPages : list (string * Panel) :=
  [ ("api-keys", UserDashboard); ("models", ModelDashboard);
    ("llm-playground", ChatUI); ("users", ViewUserDashboard);
    ("teams", Teams); ("organizations", Organizations);
    ("admin-panel", AdminPanel); ("api_ref", APIRef);
    ("settings", Settings); ("budgets", BudgetPanel);
    ("guardrails", GuardrailsPanel); ("general-settings", GeneralSettings);
    ("model-hub", ModelHub); ("caching", CacheDashboard);
    ("pass-through-settings", PassThroughSettings);
    ("logs", SpendLogsTable); ("mcp-tools", MCPToolsViewer);
    ("tag-management", TagManagement); ("new_usage", NewUsagePage) ].

(* --------------------------------------------------------------------- *)
(** ** Sample inputs *)
(* --------------------------------------------------------------------- *)

Definition viewerPayload : JsValue :=
  JObj (<["key" := JStr "sk-1234"]>
        (<["user_role" := JStr "proxy_admin_viewer"]> ∅)).

Definition sampleDecoder (tok : string) : Try JsValue :=
  if String.eqb tok "h.p.s" then Returns viewerPayload
  else Raises InvalidTokenError.

Definition sampleBrowser : Browser :=
  {| cookie := "theme=dark; token=h.p.s";
     query := "userID=u1&page=models";
     history := [] |}.

Example split_rows : split "; " "a=1; b=2;; c" = ["a=1"; "b=2;"; "c"].
Proof. reflexivity. Qed.

Example split_empty : split "; " "" = [""].
Proof. reflexivity. Qed.

Example split_equals : split "=" "token=abc=def" = ["token"; "abc"; "def"].
Proof. reflexivity. Qed.

Example getCookie_sample :
  getCookie "token" (cookie sampleBrowser) = Some "h.p.s".
Proof. reflexivity. Qed.

Example getCookie_absent : getCookie "token" "theme=dark; xtoken=1" = None.
Proof. reflexivity. Qed.

Example getCookie_empty : getCookie "token" "token=" = Some "".
Proof. reflexivity. Qed.

Example parse_sample :
  URLSearchParams.parse "userID=u%201&&page=a+b&x" =
  [("userID", "u 1"); ("page", "a b"); ("x", "")].
Proof. reflexivity. Qed.

Example toString_sample :
  URLSearchParams.toString [("userID", "u 1"); ("page", "a/b")] =
  "userID=u+1&page=a%2Fb".
Proof. reflexivity. Qed.

Example session_sample :
  calls (worldOf (session sampleDecoder sampleBrowser)) =
  [ FetchUserModels (Some "u1") "Admin Viewer" (JStr "sk-1234");
    FetchTeams (JStr "sk-1234") (Some "u1") "Admin Viewer";
    FetchOrganizations (JStr "sk-1234") ].
Proof. vm_compute. reflexivity. Qed.

Example bootstrap_sample :
  page (state (worldOf (bootstrap sampleDecoder sampleBrowser))) = "usage".
Proof. vm_compute. reflexivity. Qed.

(** More sample inputs: a payload whose role is a number, a payload with
    every field the effect reads, a decoder that accepts every token, and a
    browser on an invitation link. *)
Definition malformedPayload : JsValue :=
  JObj (<["key" := JStr "sk-5678"]> (<["user_role" := JNum (7 # 1)]> ∅)).

Definition memberPayload : JsValue :=
  JObj (<["key" := JStr "sk-9012"]>
        (<["user_role" := JStr "internal_user"]>
         (<["user_email" := JStr "ana@example.com"]>
          (<["login_method" := JStr "sso"]>
           (<["premium_user" := JBool true]>
            (<["auth_header_name" := JStr "X-Litellm-Key"]> ∅)))))).

Definition decoderOf (payload : JsValue) (tok : string) : Try JsValue :=
  Returns payload.

Definition invitationBrowser : Browser :=
  {| cookie := "token=h.p.s";
     query := "invitation_id=inv-1&page=models";
     history := [] |}.

(** A viewer-admin payload with a [toString] of its own, and a string
    made of one high surrogate, U+D800. *)
Definition shadowedPayload : JsValue :=
  JObj (<["key" := JStr "sk-3456"]>
        (<["user_role" := JStr "proxy_admin_viewer"]>
         (<["toString" := JNum (1 # 1)]> ∅))).

Definition loneSurrogate : string :=
  String "237" (String "160" (String "128" EmptyString)).

(* --------------------------------------------------------------------- *)
(** ** Vocabulary of the statements *)
(* --------------------------------------------------------------------- *)

(** The labels [formatUserRole] gives a truthy role. *)
Definition roleLabels : list string :=
  [ "App Owner"; "Admin"; "Admin Viewer"; "Org Admin"; "Internal User";
    "Internal Viewer"; "App User"; "Unknown Role" ].

Definition isString (v : JsValue) : bool :=
  match v with
  | JStr _ => true
  | _ => false
  end.

(** The payload's role makes [formatUserRole] throw: it is truthy and not
    a string. *)
Definition roleThrows (decoded : JsValue) : bool :=
  truthy (get decoded "user_role")
  && negb (isString (get decoded "user_role")).

(** A conversion to a string throws in the decoding effect: that of the
    payload, logged when [user_email] or [login_method] is falsy, or that
    of a truthy [login_method], compared with a string. *)
Definition coercionThrows (decoded : JsValue) : bool :=
  (negb (truthy (get decoded "user_email")) && toStringThrows decoded)
  || (if truthy (get decoded "login_method")
      then toStringThrows (get decoded "login_method")
      else toStringThrows decoded).

(** [allBytes P s]: every byte of [s] satisfies [P]. *)
Fixpoint allBytes (P : ascii -> bool) (s : string) : bool :=
  match s with
  | EmptyString => true
  | String c s' => P c && allBytes P s'
  end.

(** The bytes a URL keeps as they are in its query: the unreserved ones
    and [+], [%], [=], [&]. *)
Definition queryByte (c : ascii) : bool :=
  URLSearchParams.unreserved c || Ascii.eqb c "+" || Ascii.eqb c "%"
  || Ascii.eqb c "=" || Ascii.eqb c "&".

(** The number of pairs named [name]. *)
Definition occurrences (name : string) (params : URLSearchParams.t) : nat :=
  length (List.filter (URLSearchParams.named name) params).

(** A call that carries what its guard tested: a truthy access token, and
    for the fetches of models and teams a user identifier and a role. *)
Definition guarded (c : Call) : bool :=
  match c with
  | FetchUserModels u r a => truthy a && truthy_opt u && nonempty r
  | FetchTeams a u r => truthy a && truthy_opt u && nonempty r
  | FetchOrganizations a => truthy a
  | SetGlobalLitellmHeaderName v => truthy v
  end.

Definition isFetch (c : Call) : bool :=
  match c with
  | SetGlobalLitellmHeaderName _ => false
  | _ => true
  end.

(* ===================================================================== *)
(** * Facts about strings *)
(* ===================================================================== *)

Ltac each_byte c := destruct c as [[] [] [] [] [] [] [] []].

Lemma lower_char_idempotent (c : ascii) :
  lower_char (lower_char c) = lower_char c.
Proof. each_byte c; reflexivity. Qed.

Lemma toLowerCase_idempotent (s : string) :
  toLowerCase (toLowerCase s) = toLowerCase s.
Proof.
  induction s as [| c s IH]; simpl.
  - reflexivity.
  - now rewrite lower_char_idempotent, IH.
Qed.

Lemma nonempty_toLowerCase (s : string) :
  nonempty (toLowerCase s) = nonempty s.
Proof. destruct s; reflexivity. Qed.

Lemma nonempty_true (s : string) : s <> EmptyString -> nonempty s = true.
Proof. destruct s; [congruence | reflexivity]. Qed.

Lemma nonempty_inv (s : string) : nonempty s = true -> s <> EmptyString.
Proof. destruct s; [discriminate | congruence]. Qed.

(* ===================================================================== *)
(** * The role formatter: its table *)
(* ===================================================================== *)

Lemma formatUserRole_string (s : string) :
  s <> EmptyString ->
  formatUserRole (JStr s) = Returns (roleLabel (toLowerCase s)).
Proof.
  intros Hs. unfold formatUserRole. simpl.
  now rewrite (nonempty_true s Hs).
Qed.

Lemma roleLabel_known (raw label : string) :
  In (raw, label) knownRoles -> roleLabel (toLowerCase raw) = label.
Proof.
  unfold knownRoles. simpl.
  intros H. repeat (destruct H as [H | H]; [now inversion H |]).
  destruct H.
Qed.

Lemma roleLabel_unknown (lowered : string) :
  ~ In lowered (map fst knownRoles) -> roleLabel lowered = "Unknown Role".
Proof.
  intros Hout. unfold roleLabel.
  repeat match goal with
         | |- context [String.eqb lowered ?k] =>
             destruct (String.eqb_spec lowered k) as [E | _];
             [exfalso; apply Hout; rewrite E; simpl; tauto |]
         end.
  reflexivity.
Qed.

(** C3.  On each raw role of the known set [formatUserRole] returns the
    label the table gives it; on a non-empty string that the function does
    not recognize (its lowered form is not in the set) it returns
    ["Unknown Role"]; on the empty string and on [undefined] it returns
    ["Undefined Role"]. *)
Theorem C3_formatUserRole_table :
  (forall raw label : string,
      In (raw, label) knownRoles ->
      formatUserRole (JStr raw) = Returns label)
  /\ (forall s : string,
         s <> EmptyString ->
         ~ In (toLowerCase s) (map fst knownRoles) ->
         formatUserRole (JStr s) = Returns "Unknown Role")
  /\ formatUserRole (JStr "") = Returns "Undefined Role"
  /\ formatUserRole JUndefined = Returns "Undefined Role".
Proof.
  split; [| split; [| split; reflexivity]].
  - intros raw label Hin.
    rewrite formatUserRole_string.
    + now rewrite (roleLabel_known raw label Hin).
    + intros ->. revert Hin. unfold knownRoles. simpl.
      intros H. repeat (destruct H as [H | H]; [discriminate H |]).
      destruct H.
  - intros s Hs Hout.
    rewrite (formatUserRole_string s Hs).
    now rewrite (roleLabel_unknown _ Hout).
Qed.

Lemma C3_formatUserRole_table_witness :
  formatUserRole (JStr "org_admin") = Returns "Org Admin"
  /\ formatUserRole (JStr "superuser") = Returns "Unknown Role".
Proof.
  split.
  - apply (proj1 C3_formatUserRole_table "org_admin" "Org Admin").
    unfold knownRoles. simpl. tauto.
  - apply (proj1 (proj2 C3_formatUserRole_table) "superuser").
    + discriminate.
    + simpl. intros H.
      repeat (destruct H as [H | H]; [discriminate H |]).
      destruct H.
Defined.

(** C10.  [formatUserRole] does not look at the case of its argument: on a
    non-empty string [s] it returns what it returns on the lowered [s]. *)
Theorem C10_formatUserRole_case_insensitive (s : string) :
  s <> EmptyString ->
  formatUserRole (JStr s) = formatUserRole (JStr (toLowerCase s)).
Proof.
  intros Hs.
  rewrite (formatUserRole_string s Hs).
  rewrite formatUserRole_string.
  - now rewrite toLowerCase_idempotent.
  - apply nonempty_inv. rewrite nonempty_toLowerCase.
    now apply nonempty_true.
Qed.

Lemma C10_formatUserRole_case_insensitive_witness :
  "PROXY_ADMIN" <> EmptyString
  /\ formatUserRole (JStr "PROXY_ADMIN") = formatUserRole (JStr "proxy_admin")
  /\ formatUserRole (JStr "proxy_admin") = Returns "Admin".
Proof.
  split; [discriminate |].
  split; [| reflexivity].
  apply (C10_formatUserRole_case_insensitive "PROXY_ADMIN").
  discriminate.
Defined.

(* ===================================================================== *)
(** * Facts about [URLSearchParams] *)
(* ===================================================================== *)

Section QueryStringFacts.

Import URLSearchParams.

(** ** [get] and [set] *)

Lemma get_filter_other (name other : string) (params : t) :
  other <> name ->
  get other (List.filter (fun p => negb (named name p)) params)
  = get other params.
Proof.
  intros Hne. induction params as [| [k v] rest IH]; simpl.
  - reflexivity.
  - unfold named at 1. simpl.
    destruct (String.eqb_spec k name) as [-> | Hk]; simpl.
    + destruct (String.eqb_spec name other) as [E | _]; [congruence | exact IH].
    + now rewrite IH.
Qed.

Lemma get_set_same (name value : string) (params : t) :
  get name (set name value params) = Some value.
Proof.
  induction params as [| [k v] rest IH]; simpl.
  - now rewrite String.eqb_refl.
  - destruct (String.eqb_spec k name) as [-> | Hk]; simpl.
    + now rewrite String.eqb_refl.
    + destruct (String.eqb_spec k name); [congruence | exact IH].
Qed.

Lemma get_set_other (name value other : string) (params : t) :
  other <> name ->
  get other (set name value params) = get other params.
Proof.
  intros Hne. induction params as [| [k v] rest IH]; simpl.
  - destruct (String.eqb_spec name other); [congruence | reflexivity].
  - destruct (String.eqb_spec k name) as [-> | Hk]; simpl.
    + destruct (String.eqb_spec name other); [congruence |].
      now apply get_filter_other.
    + now rewrite IH.
Qed.

Lemma filter_idempotent (name : string) (params : t) :
  List.filter (fun p => negb (named name p))
    (List.filter (fun p => negb (named name p)) params)
  = List.filter (fun p => negb (named name p)) params.
Proof.
  induction params as [| p rest IH]; simpl.
  - reflexivity.
  - destruct (negb (named name p)) eqn:E; simpl.
    + now rewrite E, IH.
    + exact IH.
Qed.

(** [set] leaves the pairs of every other name as they are, in their
    order and with their repetitions. *)
Lemma filter_set (name value : string) (params : t) :
  List.filter (fun p => negb (named name p)) (set name value params)
  = List.filter (fun p => negb (named name p)) params.
Proof.
  assert (Hsame : forall x, named name (name, x) = true)
    by (intros x; unfold named; simpl; apply String.eqb_refl).
  induction params as [| [k v] rest IH]; simpl.
  - now rewrite Hsame.
  - destruct (String.eqb_spec k name) as [-> | Hk]; simpl.
    + rewrite !Hsame. simpl. apply filter_idempotent.
    + assert (Hk' : named name (k, v) = false)
        by (unfold named; simpl; now apply String.eqb_neq).
      rewrite Hk'. simpl. now rewrite IH.
Qed.

(** ** The parser inverts the serializer *)

Lemma plusToSpace_app (a b : string) :
  plusToSpace (a +:+ b) = plusToSpace a +:+ plusToSpace b.
Proof. induction a as [| c a IH]; simpl; [reflexivity | now rewrite IH]. Qed.

Lemma decode_encodeByte (c : ascii) (tail : string) :
  percentDecode (plusToSpace (encodeByte c) +:+ tail)
  = String c (percentDecode tail).
Proof. each_byte c; reflexivity. Qed.

Lemma decode_encode (s : string) : decode (encode s) = s.
Proof.
  unfold decode. induction s as [| c s IH]; simpl.
  - reflexivity.
  - now rewrite plusToSpace_app, decode_encodeByte, IH.
Qed.

Lemma lacks_app (c : ascii) (a b : string) :
  lacks c (a +:+ b) = lacks c a && lacks c b.
Proof.
  induction a as [| x a IH]; simpl; [reflexivity |].
  now rewrite IH, andb_assoc.
Qed.

Lemma encodeByte_lacks_amp (c : ascii) : lacks "&" (encodeByte c) = true.
Proof. each_byte c; reflexivity. Qed.

Lemma encodeByte_lacks_eq (c : ascii) : lacks "=" (encodeByte c) = true.
Proof. each_byte c; reflexivity. Qed.

Lemma encode_lacks_amp (s : string) : lacks "&" (encode s) = true.
Proof.
  induction s as [| c s IH]; simpl; [reflexivity |].
  now rewrite lacks_app, encodeByte_lacks_amp, IH.
Qed.

Lemma encode_lacks_eq (s : string) : lacks "=" (encode s) = true.
Proof.
  induction s as [| c s IH]; simpl; [reflexivity |].
  now rewrite lacks_app, encodeByte_lacks_eq, IH.
Qed.

Lemma cut_at_separator (sep : ascii) (a b : string) :
  lacks sep a = true ->
  cut sep (a +:+ String sep b) = (a, b).
Proof.
  induction a as [| x a IH]; simpl.
  - now rewrite Ascii.eqb_refl.
  - intros H. apply andb_prop in H as [Hx Ha].
    apply negb_true_iff in Hx. rewrite Hx.
    now rewrite (IH Ha).
Qed.

Lemma parsePair_encodePair (p : string * string) :
  parsePair (encodePair p) = p.
Proof.
  destruct p as [name value]. unfold parsePair, encodePair.
  change (encode (fst (name, value)) +:+ "=" +:+ encode (snd (name, value)))
    with (encode name +:+ String "=" (encode value)).
  rewrite (cut_at_separator "=" (encode name) (encode value)
             (encode_lacks_eq name)).
  now rewrite !decode_encode.
Qed.

Lemma sequences_single (sep : ascii) (a : string) :
  lacks sep a = true -> sequences sep a = [a].
Proof.
  induction a as [| x a IH]; simpl; [reflexivity |].
  intros H. apply andb_prop in H as [Hx Ha].
  apply negb_true_iff in Hx. rewrite Hx.
  now rewrite (IH Ha).
Qed.

Lemma sequences_at_separator (sep : ascii) (a b : string) :
  lacks sep a = true ->
  sequences sep (a +:+ String sep b) = a :: sequences sep b.
Proof.
  induction a as [| x a IH]; simpl.
  - now rewrite Ascii.eqb_refl.
  - intros H. apply andb_prop in H as [Hx Ha].
    apply negb_true_iff in Hx. rewrite Hx.
    now rewrite (IH Ha).
Qed.

Lemma sequences_joinAmp (pieces : list string) :
  Forall (fun piece => lacks "&" piece = true) pieces ->
  pieces <> [] ->
  sequences "&" (joinAmp pieces) = pieces.
Proof.
  induction pieces as [| piece more IH]; [congruence |].
  intros Hall _. inversion Hall as [| ? ? Hpiece Hmore]; subst.
  destruct more as [| next more'].
  - simpl. now apply sequences_single.
  - change (joinAmp (piece :: next :: more'))
      with (piece +:+ String "&" (joinAmp (next :: more'))).
    rewrite (sequences_at_separator "&" _ _ Hpiece).
    f_equal. apply IH; [assumption | discriminate].
Qed.

Lemma encodePair_lacks_amp (p : string * string) :
  lacks "&" (encodePair p) = true.
Proof.
  unfold encodePair.
  rewrite !lacks_app, !encode_lacks_amp. reflexivity.
Qed.

Lemma encodePair_nonempty (p : string * string) :
  nonempty (encodePair p) = true.
Proof.
  unfold encodePair. destruct (encode (fst p)); reflexivity.
Qed.

Lemma filter_nonempty_encoded (params : t) :
  List.filter nonempty (map encodePair params) = map encodePair params.
Proof.
  induction params as [| p rest IH]; simpl; [reflexivity |].
  now rewrite encodePair_nonempty, IH.
Qed.

(** Reading back a serialized list of parameters gives the list. *)
Lemma parse_toString (params : t) : parse (toString params) = params.
Proof.
  unfold parse, toString.
  destruct params as [| p rest]; [reflexivity |].
  rewrite sequences_joinAmp.
  - rewrite filter_nonempty_encoded, map_map.
    rewrite <- (map_id (p :: rest)) at 2.
    apply map_ext. intros q. apply parsePair_encodePair.
  - apply List.Forall_forall. intros piece Hin.
    apply in_map_iff in Hin as [q [<- _]].
    apply encodePair_lacks_amp.
  - discriminate.
Qed.

End QueryStringFacts.

(* ===================================================================== *)
(** * Facts about the effects *)
(* ===================================================================== *)

(** Unfolds the monad and the primitive effects. *)
Ltac run_eff :=
  unfold when, setUserRole, setPremiumUser, setDisabledPersonalKeyCreation,
    setUserEmail, setShowSSOBanner, setToken, setPage, setAccessToken,
    modifyState, call, documentCookie, try, mbind, Eff_bind, mret, Eff_ret;
  simpl.

(** Reduces the state projections and the monad, not the tests. *)
Ltac eff_norm :=
  cbn -[String.eqb sameAsString toStringThrows get truthy formatUserRole
        toLowerCase nonempty truthy_opt app getCookie initialPage
        URLSearchParams.parse URLSearchParams.get
        URLSearchParams.toUSVString].

Ltac eff_unfold :=
  unfold when, setUserRole, setPremiumUser, setDisabledPersonalKeyCreation,
    setUserEmail, setShowSSOBanner, setToken, setPage, setAccessToken,
    modifyState, call, documentCookie, try, interpolate, looseEqString,
    mbind, Eff_bind, mret, Eff_ret.

(** Splits on the test [c] when the goal still holds it. *)
Ltac split_on c H :=
  lazymatch goal with
  | |- context [c] => destruct c eqn:H; eff_norm
  | _ => idtac
  end.

(** Splits a goal about [decodeEffect jwtDecode tok w] along the tests of
    the effect, in their order, leaving the result of each test in the
    context. *)
Ltac decode_cases jwtDecode tok :=
  unfold decodeEffect;
  destruct tok as [?t |];
    [ destruct (nonempty t) eqn:?Htoken; cbn [negb]; eff_unfold;
      [ destruct (jwtDecode t) as [?decoded | ?e] eqn:?Hdecode;
        [ destruct (truthy decoded) eqn:?Hpayload; eff_norm;
          [ destruct (truthy (get decoded "user_role")) eqn:?Hrole;
            eff_norm;
            [ destruct (formatUserRole (get decoded "user_role"))
                as [?label | ?e] eqn:?Hformat; eff_norm;
              [ destruct (String.eqb label "Admin Viewer") eqn:?Hviewer;
                eff_norm
              | ]
            | ];
            split_on (truthy (get decoded "user_email")) ident:(Hemail);
            split_on (toStringThrows decoded) ident:(Htext);
            split_on (truthy (get decoded "login_method")) ident:(Hlogin);
            split_on (toStringThrows decoded) ident:(Htext);
            split_on (toStringThrows (get decoded "login_method"))
              ident:(Hlogintext);
            split_on (truthy (get decoded "premium_user")) ident:(Hpremium);
            split_on (truthy (get decoded "auth_header_name"))
              ident:(Hheader)
          | ]
        | ]
      | ]
    | ];
  eff_norm.

(** ** [updatePage] *)

Lemma updatePage_world (searchParams : URLSearchParams.t) (X : string)
    (w : World) :
  updatePage searchParams X w =
  Completed tt
    {| browser :=
         {| cookie := cookie (browser w);
            query := URLSearchParams.toString
                       (URLSearchParams.set "page"
                          (URLSearchParams.toUSVString X) searchParams);
            history := query (browser w) :: history (browser w) |};
       state :=
         {| userRole := userRole (state w);
            premiumUser := premiumUser (state w);
            disabledPersonalKeyCreation :=
              disabledPersonalKeyCreation (state w);
            userEmail := userEmail (state w);
            showSSOBanner := showSSOBanner (state w);
            token := token (state w);
            page := X;
            accessToken := accessToken (state w) |};
       calls := calls w |}.
Proof. reflexivity. Qed.

Lemma updatePage_searchParams (searchParams : URLSearchParams.t)
    (X : string) (w : World) :
  useSearchParams (worldOf (updatePage searchParams X w))
  = URLSearchParams.set "page" (URLSearchParams.toUSVString X) searchParams.
Proof.
  rewrite updatePage_world. unfold useSearchParams. simpl.
  apply parse_toString.
Qed.

Lemma updatePage_page (searchParams : URLSearchParams.t) (X : string)
    (w : World) :
  page (state (worldOf (updatePage searchParams X w))) = X.
Proof. reflexivity. Qed.

Lemma initialPage_present (searchParams : URLSearchParams.t) (p : string) :
  URLSearchParams.get "page" searchParams = Some p ->
  nonempty p = true ->
  initialPage searchParams = p.
Proof. intros Hget Hp. unfold initialPage. now rewrite Hget, Hp. Qed.

(** ** The rendering chain *)

Lemma selectPanel_known (X : string) (P : Panel) :
  In (X, P) knownPages -> selectPanel X = P.
Proof.
  unfold knownPages. simpl.
  intros H. repeat (destruct H as [H | H]; [now inversion H |]).
  destruct H.
Qed.

Lemma selectPanel_unknown (X : string) :
  ~ In X (map fst knownPages) -> selectPanel X = Usage.
Proof.
  intros Hout. unfold selectPanel.
  repeat match goal with
         | |- context [String.eqb X ?k] =>
             destruct (String.eqb_spec X k) as [E | _];
             [exfalso; apply Hout; rewrite E; simpl; tauto |]
         end.
  reflexivity.
Qed.

(** ** The token effects *)

Section TokenDecodingFacts.

Variable jwtDecode : string -> Try JsValue.

Lemma decodeEffect_browser (tok : option string) (w : World) :
  browser (worldOf (decodeEffect jwtDecode tok w)) = browser w.
Proof. decode_cases jwtDecode tok; reflexivity. Qed.

(** The cell [accessToken] in the world the decoding effect leaves,
    whether it completes or throws. *)
Lemma decodeEffect_accessToken (tok : option string) (w : World) :
  accessToken (state (worldOf (decodeEffect jwtDecode tok w))) =
  match tok with
  | Some t =>
      if nonempty t then
        match jwtDecode t with
        | Returns decoded =>
            if truthy decoded then get decoded "key"
            else accessToken (state w)
        | Raises _ => accessToken (state w)
        end
      else accessToken (state w)
  | None => accessToken (state w)
  end.
Proof. decode_cases jwtDecode tok; reflexivity. Qed.

Lemma get_string_truthy (decoded : JsValue) (name s : string) :
  get decoded name = JStr s -> truthy decoded = true.
Proof. destruct decoded; simpl; try discriminate. reflexivity. Qed.

Lemma truthy_field_object (decoded : JsValue) (name : string) :
  truthy (get decoded name) = true -> truthy decoded = true.
Proof. destruct decoded; simpl; try discriminate. reflexivity. Qed.

Lemma toStringThrows_truthy (decoded : JsValue) :
  toStringThrows decoded = true -> truthy decoded = true.
Proof. destruct decoded; simpl; try discriminate; reflexivity. Qed.

Lemma formatUserRole_raises (v : JsValue) (e : Exn) :
  truthy v = true -> formatUserRole v = Raises e -> isString v = false.
Proof.
  intros Hv. unfold formatUserRole. rewrite Hv. simpl.
  destruct v; try reflexivity. discriminate.
Qed.

Lemma formatUserRole_isString (v : JsValue) (label : string) :
  truthy v = true -> formatUserRole v = Returns label -> isString v = true.
Proof.
  intros Hv. unfold formatUserRole. rewrite Hv. simpl.
  destruct v; try discriminate. reflexivity.
Qed.

(** When the decoding effect completes: always without a token to decode
    or with a falsy payload, never when the decoder throws, and otherwise
    unless the role or a conversion to a string throws. *)
Lemma decodeEffect_completed (tok : option string) (w : World) :
  completed (decodeEffect jwtDecode tok w) =
  match tok with
  | Some t =>
      if nonempty t then
        match jwtDecode t with
        | Returns decoded =>
            negb (truthy decoded)
            || negb (roleThrows decoded || coercionThrows decoded)
        | Raises _ => false
        end
      else true
  | None => true
  end.
Proof.
  unfold roleThrows, coercionThrows.
  decode_cases jwtDecode tok;
    try rewrite (formatUserRole_isString _ _ Hrole Hformat);
    try rewrite (formatUserRole_raises _ _ Hrole Hformat);
    repeat match goal with
           | H : _ = true |- _ => rewrite H
           | H : _ = false |- _ => rewrite H
           end;
    try reflexivity.
Qed.

(** A token whose role is the viewer-admin one: the effect calls
    [setPage("usage")], whether or not it completes afterwards. *)
Lemma decodeEffect_viewer (tok : string) (decoded : JsValue) (w : World) :
  nonempty tok = true ->
  jwtDecode tok = Returns decoded ->
  get decoded "user_role" = JStr "proxy_admin_viewer" ->
  page (state (worldOf (decodeEffect jwtDecode (Some tok) w))) = "usage".
Proof.
  intros Htok Hdec Hrole.
  unfold decodeEffect. rewrite Htok. cbn [negb]. eff_unfold.
  rewrite Hdec, (get_string_truthy _ _ _ Hrole), Hrole. eff_norm.
  split_on (truthy (get decoded "user_email")) ident:(Hemail);
  split_on (toStringThrows decoded) ident:(Htext);
  split_on (truthy (get decoded "login_method")) ident:(Hlogin);
  split_on (toStringThrows decoded) ident:(Htext);
  split_on (toStringThrows (get decoded "login_method")) ident:(Hlogintext);
  split_on (truthy (get decoded "premium_user")) ident:(Hpremium);
  split_on (truthy (get decoded "auth_header_name")) ident:(Hheader);
  reflexivity.
Qed.

(** For a role that is a string, the effect completes exactly when no
    conversion to a string throws. *)
Lemma decodeEffect_completed_string_role (tok s : string)
    (decoded : JsValue) (w : World) :
  nonempty tok = true ->
  jwtDecode tok = Returns decoded ->
  get decoded "user_role" = JStr s ->
  completed (decodeEffect jwtDecode (Some tok) w)
  = negb (coercionThrows decoded).
Proof.
  intros Htok Hdec Hrole.
  rewrite decodeEffect_completed, Htok, Hdec.
  rewrite (get_string_truthy _ _ _ Hrole).
  unfold roleThrows. rewrite Hrole. simpl.
  now rewrite andb_false_r.
Qed.

(** The first commit stores the cookie's token and does nothing else: the
    render it belongs to saw no token and no access token. *)
Lemma firstCommit_mount (b : Browser) :
  firstCommit jwtDecode (mount b) =
  Completed tt
    {| browser := b;
       state :=
         {| userRole := "";
            premiumUser := JBool false;
            disabledPersonalKeyCreation := JBool false;
            userEmail := JNull;
            showSSOBanner := true;
            token := getCookie "token" (cookie b);
            page := initialPage (URLSearchParams.parse (query b));
            accessToken := JNull |};
       calls := [] |}.
Proof. reflexivity. Qed.

Lemma bootstrap_decode (b : Browser) :
  bootstrap jwtDecode b =
  decodeEffect jwtDecode (getCookie "token" (cookie b))
    (worldOf (firstCommit jwtDecode (mount b))).
Proof. reflexivity. Qed.

Lemma rendered_completed (o : Outcome unit) :
  completed o = true -> rendered o = Some (worldOf o).
Proof. destruct o; [reflexivity | discriminate]. Qed.

Lemma rendered_threw (o : Outcome unit) :
  completed o = false -> rendered o = None.
Proof. destruct o; [discriminate | reflexivity]. Qed.

End TokenDecodingFacts.

(* ===================================================================== *)
(** * The reference-data loader *)
(* ===================================================================== *)

(** C1, as the specification states it, fails: with an access token and
    neither a user identifier nor a role, the organizations fetch is
    issued.  A session reaches such a state: on a URL without [userID] the
    sample token leaves the organizations fetch as the only call. *)
Lemma C1_organizations_fetch_without_identity :
  calls (worldOf (refDataEffect (JStr "sk-1234") None ""
                    (mount sampleBrowser)))
  = [FetchOrganizations (JStr "sk-1234")]
  /\ calls (worldOf (session sampleDecoder
                       (mkBrowser "token=h.p.s" "page=models" [])))
     = [FetchOrganizations (JStr "sk-1234")]
  /\ ~ (forall (a : JsValue) (u : option string) (r : string) (w : World),
          truthy a && truthy_opt u && nonempty r = false ->
          calls (worldOf (refDataEffect a u r w)) = calls w).
Proof.
  split; [reflexivity |]. split; [reflexivity |].
  intros H.
  specialize (H (JStr "sk-1234") None "" (mount sampleBrowser) eq_refl).
  discriminate H.
Qed.

(** C1, amended.  The fetches of the user's models and of the user's teams
    are issued exactly when [accessToken], [userID] and [userRole] are all
    truthy; the fetch of the organizations is issued exactly when
    [accessToken] is truthy; these are the only calls the effect makes, in
    this order. *)
Theorem C1_reference_fetches (a : JsValue) (u : option string) (r : string)
    (w : World) :
  let o := refDataEffect a u r w in
  completed o = true
  /\ browser (worldOf o) = browser w
  /\ state (worldOf o) = state w
  /\ calls (worldOf o) =
     calls w
     ++ (if truthy a && truthy_opt u && nonempty r
         then [FetchUserModels u r a; FetchTeams a u r] else [])
     ++ (if truthy a then [FetchOrganizations a] else []).
Proof.
  intros o. unfold o, refDataEffect. run_eff.
  destruct (truthy a) eqn:Ha; simpl.
  - destruct (truthy_opt u) eqn:Hu; simpl.
    + destruct (nonempty r) eqn:Hr; simpl.
      * repeat split. now rewrite <- !app_assoc.
      * repeat split.
    + repeat split.
  - repeat split. now rewrite app_nil_r.
Qed.

(* ===================================================================== *)
(** * The page router *)
(* ===================================================================== *)

(** C7.  Without a [page] parameter in the URL, the cell [page] starts as
    ["api-keys"]. *)
Theorem C7_initial_page_default (b : Browser) :
  URLSearchParams.get "page" (URLSearchParams.parse (query b)) = None ->
  page (state (mount b)) = "api-keys".
Proof. intros Habsent. simpl. unfold initialPage. now rewrite Habsent. Qed.

Lemma C7_initial_page_default_witness :
  URLSearchParams.get "page" (URLSearchParams.parse "userID=u1") = None
  /\ page (state (mount (mkBrowser "token=h.p.s" "userID=u1" [])))
     = "api-keys".
Proof.
  split; [reflexivity |].
  apply (C7_initial_page_default (mkBrowser "token=h.p.s" "userID=u1" [])).
  reflexivity.
Defined.

(** C5.  After [updatePage("models")], whatever the parameters before it,
    the URL carries [page=models], and a component mounted on that URL (as
    on a reload) starts on ["models"]. *)
Theorem C5_updatePage_reload_roundtrip (searchParams : URLSearchParams.t)
    (w : World) :
  let w' := worldOf (updatePage searchParams "models" w) in
  URLSearchParams.get "page" (useSearchParams w') = Some "models"
  /\ initialPage (useSearchParams w') = "models"
  /\ page (state (mount (browser w'))) = "models".
Proof.
  intros w'.
  assert (Hget : URLSearchParams.get "page" (useSearchParams w')
                 = Some "models").
  { unfold w'. rewrite updatePage_searchParams.
    apply get_set_same. }
  assert (Hinit : initialPage (useSearchParams w') = "models")
    by now apply initialPage_present.
  repeat split; assumption.
Qed.

Lemma sidebarMounted_invitation (w : World) :
  sidebarMounted w = negb (truthy_opt (invitation_id w)).
Proof.
  unfold sidebarMounted, render. now destruct (truthy_opt (invitation_id w)).
Qed.

Lemma sidebarSetPage_searchParams (X : string) (w : World) :
  useSearchParams (worldOf (sidebarSetPage X w))
  = URLSearchParams.set "page" (URLSearchParams.toUSVString X)
      (useSearchParams w).
Proof. unfold sidebarSetPage. apply updatePage_searchParams. Qed.

Lemma sidebarSetPage_invitation (X : string) (w : World) :
  invitation_id (worldOf (sidebarSetPage X w)) = invitation_id w.
Proof.
  unfold invitation_id. rewrite sidebarSetPage_searchParams.
  now apply get_set_other.
Qed.

(** C4, as the specification states it, fails on a string with a surrogate
    that is not part of a pair: [set] writes U+FFFD into the URL while the
    cell [page] keeps the string, so the URL's [page] parameter is not the
    string [updatePage] was called with. *)
Lemma C4_lone_surrogate_not_in_url :
  (let w := mount sampleBrowser in
   let w' := worldOf (sidebarSetPage loneSurrogate w) in
   sidebarMounted w = true
   /\ page (state w') = loneSurrogate
   /\ URLSearchParams.get "page" (useSearchParams w')
      = Some URLSearchParams.replacementCharacter
   /\ URLSearchParams.get "page" (useSearchParams w') <> Some loneSurrogate)
  /\ ~ (forall (X : string) (w : World),
          sidebarMounted w = true ->
          URLSearchParams.get "page"
            (useSearchParams (worldOf (sidebarSetPage X w))) = Some X).
Proof.
  assert (Hurl : URLSearchParams.get "page"
                   (useSearchParams
                      (worldOf (sidebarSetPage loneSurrogate
                                  (mount sampleBrowser))))
                 = Some URLSearchParams.replacementCharacter)
    by (vm_compute; reflexivity).
  split.
  - intros w w'. split; [reflexivity |]. split; [reflexivity |].
    split; [exact Hurl |].
    unfold w', w. rewrite Hurl. discriminate.
  - intros Hall.
    specialize (Hall loneSurrogate (mount sampleBrowser) eq_refl).
    rewrite Hurl in Hall. discriminate Hall.
Qed.

(** C4, amended.  For every string [X], [updatePage(X)], called from the
    sidebar, completes; after it the URL's [page] parameter is [X] with
    every surrogate outside a pair replaced by U+FFFD, hence [X] itself
    when [X] has no such surrogate, and the component renders the panel of
    [X]: the one the known set gives [X], and [Usage] for an [X] outside
    the set. *)
Theorem C4_updatePage_selects_panel (X : string) (w : World) :
  sidebarMounted w = true ->
  let o := sidebarSetPage X w in
  completed o = true
  /\ URLSearchParams.get "page" (useSearchParams (worldOf o))
     = Some (URLSearchParams.toUSVString X)
  /\ (URLSearchParams.toUSVString X = X ->
      URLSearchParams.get "page" (useSearchParams (worldOf o)) = Some X)
  /\ page (state (worldOf o)) = X
  /\ render (worldOf o) = DashboardView X (selectPanel X)
  /\ (forall P : Panel, In (X, P) knownPages -> selectPanel X = P)
  /\ (~ In X (map fst knownPages) -> selectPanel X = Usage).
Proof.
  intros Hmounted o.
  assert (Hurl : URLSearchParams.get "page" (useSearchParams (worldOf o))
                 = Some (URLSearchParams.toUSVString X))
    by (unfold o; rewrite sidebarSetPage_searchParams; apply get_set_same).
  split; [reflexivity |].
  split; [exact Hurl |].
  split; [intros Hwell; now rewrite Hurl, Hwell |].
  split; [reflexivity |].
  split.
  - rewrite sidebarMounted_invitation in Hmounted.
    apply negb_true_iff in Hmounted.
    unfold render, o. rewrite sidebarSetPage_invitation, Hmounted.
    reflexivity.
  - split; [apply selectPanel_known | apply selectPanel_unknown].
Qed.

Lemma C4_updatePage_selects_panel_witness :
  let w := mount sampleBrowser in
  sidebarMounted w = true
  /\ URLSearchParams.toUSVString "teams" = "teams"
  /\ URLSearchParams.get "page"
       (useSearchParams (worldOf (sidebarSetPage "teams" w))) = Some "teams"
  /\ render (worldOf (sidebarSetPage "teams" w)) = DashboardView "teams" Teams
  /\ render (worldOf (sidebarSetPage "no such page" w))
     = DashboardView "no such page" Usage.
Proof.
  intros w. split; [reflexivity |]. split; [reflexivity |]. split; [| split].
  - exact (proj1 (proj2 (proj2
      (C4_updatePage_selects_panel "teams" w eq_refl))) eq_refl).
  - exact (proj1 (proj2 (proj2 (proj2 (proj2
      (C4_updatePage_selects_panel "teams" w eq_refl)))))).
  - exact (proj1 (proj2 (proj2 (proj2 (proj2
      (C4_updatePage_selects_panel "no such page" w eq_refl)))))).
Defined.

(** C8.  [updatePage(X)] rewrites the [page] parameter only: every
    parameter of another name, [userID] and [invitation_id] among them,
    reads in the new URL as it read before, and the pairs of the other
    names keep their order and their repetitions. *)
Theorem C8_updatePage_frame (X : string) (w : World) (name : string) :
  name <> "page" ->
  let w' := worldOf (sidebarSetPage X w) in
  URLSearchParams.get name (useSearchParams w')
  = URLSearchParams.get name (useSearchParams w)
  /\ List.filter (fun p => negb (URLSearchParams.named "page" p))
       (useSearchParams w')
     = List.filter (fun p => negb (URLSearchParams.named "page" p))
         (useSearchParams w)
  /\ userID w' = userID w
  /\ invitation_id w' = invitation_id w.
Proof.
  intros Hname w'. unfold w', userID.
  rewrite sidebarSetPage_invitation, !sidebarSetPage_searchParams.
  split; [now apply get_set_other |].
  split; [apply filter_set |].
  split; [now apply get_set_other | reflexivity].
Qed.

Lemma C8_updatePage_frame_witness :
  let w := mount (mkBrowser "" "userID=u+1&page=teams&page=x&tag=a&tag=b" []) in
  let w' := worldOf (sidebarSetPage "logs" w) in
  "tag" <> "page"
  /\ URLSearchParams.get "tag" (useSearchParams w')
     = URLSearchParams.get "tag" (useSearchParams w)
  /\ query (browser w') = "userID=u+1&page=logs&tag=a&tag=b".
Proof.
  intros w w'. split; [discriminate |]. split; [| reflexivity].
  refine (proj1 (C8_updatePage_frame "logs" w "tag" _)).
  discriminate.
Defined.

(* ===================================================================== *)
(** * Session bootstrap *)
(* ===================================================================== *)

(** C2, as the specification states it, fails on a viewer-admin payload
    that has a [toString] of its own: the effect calls [setPage("usage")]
    and then throws while it logs the payload, the tree is unmounted, and
    no render has ["usage"] in the cell [page]. *)
Lemma C2_own_toString_unmounts :
  (let jwtDecode := decoderOf shadowedPayload in
   let w := worldOf (firstCommit jwtDecode (mount sampleBrowser)) in
   token (state w) = Some "h.p.s"
   /\ jwtDecode "h.p.s" = Returns shadowedPayload
   /\ get shadowedPayload "user_role" = JStr "proxy_admin_viewer"
   /\ completed (tokenCommit jwtDecode w) = false
   /\ rendered (tokenCommit jwtDecode w) = None)
  /\ ~ (forall (jwtDecode : string -> Try JsValue) (w : World)
               (tok : string) (decoded : JsValue),
          token (state w) = Some tok ->
          nonempty tok = true ->
          jwtDecode tok = Returns decoded ->
          get decoded "user_role" = JStr "proxy_admin_viewer" ->
          exists w' : World,
            rendered (tokenCommit jwtDecode w) = Some w'
            /\ page (state w') = "usage").
Proof.
  assert (Hnone : rendered
                    (tokenCommit (decoderOf shadowedPayload)
                       (worldOf (firstCommit (decoderOf shadowedPayload)
                                   (mount sampleBrowser)))) = None)
    by (vm_compute; reflexivity).
  split.
  - intros jwtDecode w.
    split; [reflexivity |]. split; [reflexivity |]. split; [reflexivity |].
    split; [vm_compute; reflexivity | exact Hnone].
  - intros Hall.
    destruct (Hall (decoderOf shadowedPayload)
                (worldOf (firstCommit (decoderOf shadowedPayload)
                            (mount sampleBrowser)))
                "h.p.s" shadowedPayload eq_refl eq_refl eq_refl eq_refl)
      as [w' [Hw' _]].
    rewrite Hnone in Hw'. discriminate Hw'.
Qed.

(** C2, amended.  Whatever the URL and the cell [page] hold, when the token
    decodes to a payload whose [user_role] is ["proxy_admin_viewer"] and
    the token-decoding effect completes, the render that follows has
    ["usage"] in the cell [page].  The effect completes exactly when no
    conversion to a string throws: neither that of the payload, logged
    when [user_email] or [login_method] is missing, nor that of a
    [login_method] compared with a string. *)
Theorem C2_viewer_admin_lands_on_usage (jwtDecode : string -> Try JsValue)
    (w : World) (tok : string) (decoded : JsValue) :
  token (state w) = Some tok ->
  nonempty tok = true ->
  jwtDecode tok = Returns decoded ->
  get decoded "user_role" = JStr "proxy_admin_viewer" ->
  (completed (tokenCommit jwtDecode w) = true <->
   coercionThrows decoded = false)
  /\ (completed (tokenCommit jwtDecode w) = true ->
      exists w' : World,
        rendered (tokenCommit jwtDecode w) = Some w'
        /\ page (state w') = "usage").
Proof.
  intros Hcell Htok Hdec Hrole. unfold tokenCommit. rewrite Hcell.
  split.
  - rewrite (decodeEffect_completed_string_role jwtDecode tok
               "proxy_admin_viewer" decoded w Htok Hdec Hrole).
    now rewrite negb_true_iff.
  - intros Hdone.
    exists (worldOf (decodeEffect jwtDecode (Some tok) w)).
    split; [now apply rendered_completed |].
    now apply decodeEffect_viewer with (decoded := decoded).
Qed.

Lemma C2_viewer_admin_lands_on_usage_witness :
  let w := worldOf (firstCommit sampleDecoder (mount sampleBrowser)) in
  page (state w) = "models"
  /\ token (state w) = Some "h.p.s"
  /\ sampleDecoder "h.p.s" = Returns viewerPayload
  /\ get viewerPayload "user_role" = JStr "proxy_admin_viewer"
  /\ coercionThrows viewerPayload = false
  /\ completed (tokenCommit sampleDecoder w) = true
  /\ exists w' : World,
       rendered (tokenCommit sampleDecoder w) = Some w'
       /\ page (state w') = "usage".
Proof.
  intros w.
  split; [reflexivity |]. split; [reflexivity |].
  split; [reflexivity |]. split; [reflexivity |].
  split; [reflexivity |].
  destruct (C2_viewer_admin_lands_on_usage sampleDecoder w "h.p.s"
              viewerPayload eq_refl eq_refl eq_refl eq_refl)
    as [Hiff Hpage].
  assert (Hdone : completed (tokenCommit sampleDecoder w) = true)
    by (apply Hiff; reflexivity).
  split; [exact Hdone | exact (Hpage Hdone)].
Defined.

(** C9.  The decoding effect never touches the browser: the URL after it
    is the URL before it.  For a viewer-admin token it leaves ["usage"] in
    the cell [page] and the URL's [page] parameter as it was, so the two
    can differ: on the sample browser the parameter reads ["models"] and
    the cell ["usage"]. *)
Theorem C9_redirect_leaves_url :
  (forall (jwtDecode : string -> Try JsValue) (tok : option string)
          (w : World),
      browser (worldOf (decodeEffect jwtDecode tok w)) = browser w)
  /\ (forall (jwtDecode : string -> Try JsValue) (w : World) (tok : string)
             (decoded : JsValue),
         token (state w) = Some tok ->
         nonempty tok = true ->
         jwtDecode tok = Returns decoded ->
         get decoded "user_role" = JStr "proxy_admin_viewer" ->
         let w' := worldOf (tokenCommit jwtDecode w) in
         page (state w') = "usage"
         /\ query (browser w') = query (browser w)
         /\ URLSearchParams.get "page" (useSearchParams w')
            = URLSearchParams.get "page" (useSearchParams w))
  /\ (let w' := worldOf (bootstrap sampleDecoder sampleBrowser) in
      URLSearchParams.get "page" (useSearchParams w') = Some "models"
      /\ page (state w') = "usage").
Proof.
  split; [exact decodeEffect_browser |].
  split; [| split; reflexivity].
  intros jwtDecode w tok decoded Hcell Htok Hdec Hrole w'.
  assert (Hb : browser w' = browser w)
    by (unfold w', tokenCommit; apply decodeEffect_browser).
  split.
  - unfold w', tokenCommit. rewrite Hcell.
    now apply (decodeEffect_viewer jwtDecode tok decoded w).
  - unfold useSearchParams. now rewrite Hb.
Qed.

Lemma C9_redirect_leaves_url_witness :
  let w := worldOf (firstCommit sampleDecoder (mount sampleBrowser)) in
  let w' := worldOf (tokenCommit sampleDecoder w) in
  token (state w) = Some "h.p.s"
  /\ page (state w') = "usage"
  /\ query (browser w') = "userID=u1&page=models".
Proof.
  intros w w'. split; [reflexivity |].
  destruct (proj1 (proj2 C9_redirect_leaves_url) sampleDecoder w "h.p.s"
              viewerPayload eq_refl eq_refl eq_refl eq_refl)
    as [Hpage [Hquery _]].
  split; [exact Hpage | exact Hquery].
Defined.

(** C6, as the specification states it, fails on a payload that carries a
    key and a role that is not a string: the cookie decodes and the key is
    usable, yet the effect throws after [setAccessToken], the tree is
    unmounted, and no render has a token in the cell [accessToken]. *)
Lemma C6_thrown_effect_sets_no_token :
  (let jwtDecode := decoderOf malformedPayload in
   getCookie "token" (cookie sampleBrowser) = Some "h.p.s"
   /\ jwtDecode "h.p.s" = Returns malformedPayload
   /\ get malformedPayload "key" = JStr "sk-5678"
   /\ bootstrap jwtDecode sampleBrowser
      = Threw TypeError (worldOf (bootstrap jwtDecode sampleBrowser))
   /\ rendered (bootstrap jwtDecode sampleBrowser) = None)
  /\ ~ (forall (jwtDecode : string -> Try JsValue) (b : Browser),
          (exists w : World,
              rendered (bootstrap jwtDecode b) = Some w
              /\ nullish (accessToken (state w)) = false) <->
          (exists (tok : string) (decoded : JsValue),
              getCookie "token" (cookie b) = Some tok
              /\ tok <> EmptyString
              /\ jwtDecode tok = Returns decoded
              /\ nullish (get decoded "key") = false)).
Proof.
  assert (Hnone : rendered (bootstrap (decoderOf malformedPayload)
                              sampleBrowser) = None)
    by (vm_compute; reflexivity).
  split.
  - intros jwtDecode.
    split; [reflexivity |]. split; [reflexivity |]. split; [reflexivity |].
    split; [vm_compute; reflexivity | exact Hnone].
  - intros Hall.
    destruct (proj2 (Hall (decoderOf malformedPayload) sampleBrowser))
      as [w [Hw _]].
    + exists "h.p.s", malformedPayload.
      split; [reflexivity |]. split; [discriminate |].
      split; reflexivity.
    + rewrite Hnone in Hw. discriminate Hw.
Qed.

(** C6, amended.  A render after the session bootstrap has a cell
    [accessToken] that is neither [null] nor [undefined] exactly when the
    cookie carries a non-empty token, the token decodes, the payload has a
    [key] that is neither [null] nor [undefined], and the decoding effect
    completes: the role is falsy or a string and no conversion to a string
    throws.  In every such render the cell holds the payload's [key] when a
    truthy payload was decoded and [null] otherwise; it is [null] without
    the cookie, and holds no token when the payload has no such [key]. *)
Theorem C6_accessToken_invariant (jwtDecode : string -> Try JsValue)
    (b : Browser) :
  ((exists w : World,
       rendered (bootstrap jwtDecode b) = Some w
       /\ nullish (accessToken (state w)) = false) <->
   (exists (tok : string) (decoded : JsValue),
       getCookie "token" (cookie b) = Some tok
       /\ tok <> EmptyString
       /\ jwtDecode tok = Returns decoded
       /\ nullish (get decoded "key") = false
       /\ roleThrows decoded = false
       /\ coercionThrows decoded = false))
  /\ (getCookie "token" (cookie b) = None ->
      exists w : World,
        rendered (bootstrap jwtDecode b) = Some w
        /\ accessToken (state w) = JNull)
  /\ (forall (w : World) (tok : string) (decoded : JsValue),
         rendered (bootstrap jwtDecode b) = Some w ->
         getCookie "token" (cookie b) = Some tok ->
         jwtDecode tok = Returns decoded ->
         nullish (get decoded "key") = true ->
         nullish (accessToken (state w)) = true)
  /\ (forall w : World,
         rendered (bootstrap jwtDecode b) = Some w ->
         accessToken (state w) =
         match getCookie "token" (cookie b) with
         | Some tok =>
             if nonempty tok then
               match jwtDecode tok with
               | Returns decoded =>
                   if truthy decoded then get decoded "key" else JNull
               | Raises _ => JNull
               end
             else JNull
         | None => JNull
         end).
Proof.
  set (o := bootstrap jwtDecode b).
  assert (Hval : accessToken (state (worldOf o)) =
     match getCookie "token" (cookie b) with
     | Some tok =>
         if nonempty tok then
           match jwtDecode tok with
           | Returns decoded =>
               if truthy decoded then get decoded "key" else JNull
           | Raises _ => JNull
           end
         else JNull
     | None => JNull
     end).
  { unfold o. rewrite bootstrap_decode, decodeEffect_accessToken.
    rewrite firstCommit_mount. reflexivity. }
  assert (Hdone : completed o =
     match getCookie "token" (cookie b) with
     | Some tok =>
         if nonempty tok then
           match jwtDecode tok with
           | Returns decoded =>
               negb (truthy decoded)
               || negb (roleThrows decoded || coercionThrows decoded)
           | Raises _ => false
           end
         else true
     | None => true
     end)
    by (unfold o; rewrite bootstrap_decode; apply decodeEffect_completed).
  assert (Hworld : forall w, rendered o = Some w -> w = worldOf o)
    by (intros w; destruct o; simpl; congruence).
  assert (Hfalsy : forall decoded,
             truthy decoded = false -> get decoded "key" = JUndefined)
    by (intros decoded; destruct decoded; simpl; try reflexivity;
        discriminate).
  split; [| split; [| split]].
  - split.
    + intros [w [Hw Hkey]].
      assert (Hc : completed o = true) by (destruct o; [reflexivity | discriminate Hw]).
      rewrite (Hworld w Hw), Hval in Hkey. rewrite Hdone in Hc.
      destruct (getCookie "token" (cookie b)) as [tok |]; [| discriminate].
      destruct (nonempty tok) eqn:Htok; [| discriminate].
      destruct (jwtDecode tok) as [decoded | e] eqn:Hdec; [| discriminate].
      destruct (truthy decoded); [| discriminate]. simpl in Hc.
      apply negb_true_iff, orb_false_iff in Hc as [Hr Hs].
      exists tok, decoded.
      repeat split; try assumption. now apply nonempty_inv.
    + intros (tok & decoded & Hcookie & Htok & Hdec & Hkey & Hr & Hs).
      assert (Hc : completed o = true).
      { rewrite Hdone, Hcookie, (nonempty_true tok Htok), Hdec, Hr, Hs.
        now rewrite orb_true_r. }
      exists (worldOf o). split; [now apply rendered_completed |].
      rewrite Hval, Hcookie, (nonempty_true tok Htok), Hdec.
      destruct (truthy decoded) eqn:Htruthy; [exact Hkey |].
      rewrite (Hfalsy decoded Htruthy) in Hkey. discriminate.
  - intros Hcookie. exists (worldOf o). split.
    + apply rendered_completed. now rewrite Hdone, Hcookie.
    + now rewrite Hval, Hcookie.
  - intros w tok decoded Hw Hcookie Hdec Hkey.
    rewrite (Hworld w Hw), Hval, Hcookie, Hdec.
    destruct (nonempty tok); [| reflexivity].
    destruct (truthy decoded); [exact Hkey | reflexivity].
  - intros w Hw. now rewrite (Hworld w Hw).
Qed.

Lemma C6_accessToken_invariant_witness :
  getCookie "token" (cookie sampleBrowser) = Some "h.p.s"
  /\ sampleDecoder "h.p.s" = Returns viewerPayload
  /\ nullish (get viewerPayload "key") = false
  /\ roleThrows viewerPayload = false
  /\ coercionThrows viewerPayload = false
  /\ (exists w : World,
         rendered (bootstrap sampleDecoder sampleBrowser) = Some w
         /\ nullish (accessToken (state w)) = false)
  /\ (exists w : World,
         rendered (bootstrap sampleDecoder
                     (mkBrowser "theme=dark" "page=models" [])) = Some w
         /\ accessToken (state w) = JNull).
Proof.
  split; [reflexivity |]. split; [reflexivity |]. split; [reflexivity |].
  split; [reflexivity |]. split; [reflexivity |].
  split.
  - apply (proj1 (C6_accessToken_invariant sampleDecoder sampleBrowser)).
    exists "h.p.s", viewerPayload.
    repeat split; try reflexivity. discriminate.
  - apply (proj1 (proj2 (C6_accessToken_invariant sampleDecoder
                           (mkBrowser "theme=dark" "page=models" [])))).
    reflexivity.
Defined.
(* ===================================================================== *)
(** * The cookie reader *)
(* ===================================================================== *)

Lemma prefix_char (c a : ascii) (s : string) :
  String.prefix (String c EmptyString) (String a s) = Ascii.eqb a c.
Proof.
  simpl. destruct (ascii_dec c a) as [-> | Hne].
  - rewrite Ascii.eqb_refl. now destruct s.
  - symmetry. apply Ascii.eqb_neq. congruence.
Qed.

(** Splitting on a one-byte separator cuts at every occurrence of the
    byte. *)
Lemma split_char_sequences (c : ascii) (s : string) :
  split (String c EmptyString) s = URLSearchParams.sequences c s.
Proof.
  unfold split. induction s as [| a s IH].
  - reflexivity.
  - cbn [split_from URLSearchParams.sequences].
    rewrite prefix_char. cbn [String.length Nat.sub].
    now rewrite IH.
Qed.

Lemma sequences_head (c : ascii) (s : string) :
  nth_error (URLSearchParams.sequences c s) 0
  = Some (fst (URLSearchParams.cut c s)).
Proof.
  induction s as [| a s IH]; simpl.
  - reflexivity.
  - destruct (Ascii.eqb a c); [reflexivity |].
    destruct (URLSearchParams.sequences c s) as [| piece pieces];
      [discriminate IH |].
    destruct (URLSearchParams.cut c s) as [before after].
    simpl in *. now inversion IH.
Qed.

Lemma sequences_pieces_lack (c : ascii) (s : string) :
  Forall (fun piece => URLSearchParams.lacks c piece = true)
    (URLSearchParams.sequences c s).
Proof.
  induction s as [| a s IH]; simpl.
  - repeat constructor.
  - destruct (Ascii.eqb a c) eqn:Hac.
    + constructor; [reflexivity | exact IH].
    + destruct (URLSearchParams.sequences c s) as [| piece pieces].
      * repeat constructor. simpl. now rewrite Hac.
      * inversion IH; subst. constructor; [| assumption].
        simpl. now rewrite Hac.
Qed.

Lemma prefix_split (pre s : string) :
  String.prefix pre s = true -> exists rest, s = pre +:+ rest.
Proof.
  revert s. induction pre as [| c pre IH]; intros s H.
  - now exists s.
  - destruct s as [| a s]; [discriminate H |].
    simpl in H. destruct (ascii_dec c a) as [-> | _]; [| discriminate H].
    destruct (IH s H) as [rest ->]. now exists rest.
Qed.

Lemma prefix_app (pre rest : string) : String.prefix pre (pre +:+ rest) = true.
Proof.
  induction pre as [| c pre IH]; simpl.
  - now destruct rest.
  - destruct (ascii_dec c c); [exact IH | congruence].
Qed.

(** A string that holds the byte [c] splits into two pieces at least. *)
Lemma sequences_second (c : ascii) (a b : string) :
  exists v, nth_error (URLSearchParams.sequences c (a +:+ String c b)) 1
            = Some v.
Proof.
  induction a as [| x a [v IH]]; simpl.
  - rewrite Ascii.eqb_refl.
    destruct (sequences_head c b) as []. simpl.
    destruct (URLSearchParams.sequences c b) as [| piece pieces] eqn:E.
    + pose proof (sequences_head c b) as H. rewrite E in H. discriminate H.
    + now exists piece.
  - destruct (Ascii.eqb x c).
    + simpl.
      pose proof (sequences_head c (a +:+ String c b)) as H.
      destruct (URLSearchParams.sequences c (a +:+ String c b))
        as [| piece pieces]; [discriminate H |].
      now exists piece.
    + destruct (URLSearchParams.sequences c (a +:+ String c b))
        as [| piece pieces]; [discriminate IH |].
      now exists v.
Qed.

Lemma prefix_mismatch (c x : ascii) (pre s : string) :
  c <> x -> String.prefix (String c pre) (String x s) = false.
Proof.
  intros Hne.
  change (String.prefix (String c pre) (String x s))
    with (match ascii_dec c x with
          | left _ => String.prefix pre s
          | right _ => false
          end).
  destruct (ascii_dec c x); [congruence | reflexivity].
Qed.

(** The rows of a cookie jar: a first row without [;], then the rest. *)
Lemma split_rows_cons (row rest : string) :
  URLSearchParams.lacks ";" row = true ->
  split "; " (row +:+ "; " +:+ rest) = row :: split "; " rest.
Proof.
  unfold split. induction row as [| x row IH]; intros Hrow.
  - destruct rest; reflexivity.
  - simpl in Hrow. apply andb_prop in Hrow as [Hx Hrow].
    apply negb_true_iff, Ascii.eqb_neq in Hx.
    change (String x row +:+ "; " +:+ rest)
      with (String x (row +:+ "; " +:+ rest)).
    cbn [split_from].
    rewrite prefix_mismatch by congruence.
    now rewrite (IH Hrow).
Qed.

Lemma split_rows_single (row : string) :
  URLSearchParams.lacks ";" row = true -> split "; " row = [row].
Proof.
  unfold split. induction row as [| x row IH]; intros Hrow.
  - reflexivity.
  - simpl in Hrow. apply andb_prop in Hrow as [Hx Hrow].
    apply negb_true_iff, Ascii.eqb_neq in Hx.
    cbn [split_from].
    rewrite prefix_mismatch by congruence.
    now rewrite (IH Hrow).
Qed.

Lemma append_cons (x : ascii) (a b : string) :
  String x a +:+ b = String x (a +:+ b).
Proof. reflexivity. Qed.

Lemma append_separator (a b : string) (c : ascii) :
  (a +:+ String c EmptyString) +:+ b = a +:+ String c b.
Proof.
  induction a as [| x a IH]; [reflexivity |].
  rewrite !append_cons. now rewrite IH.
Qed.

Lemma nonempty_separator (a b : string) (c : ascii) :
  nonempty (a +:+ String c b) = true.
Proof. destruct a; reflexivity. Qed.

(** X1.  [getCookie] finds a value exactly when some row of the jar
    starts with [name=]; it is then a string, never [undefined]. *)
Theorem getCookie_found_iff (name jar : string) :
  (exists v, getCookie name jar = Some v) <->
  (exists row, In row (split "; " jar)
               /\ startsWith row (name +:+ "=") = true).
Proof.
  unfold getCookie. split.
  - intros [v Hv].
    destruct (List.find _ (split "; " jar)) as [row |] eqn:Hfind;
      [| discriminate Hv].
    apply List.find_some in Hfind. now exists row.
  - intros [row [Hin Hrow]].
    destruct (List.find (fun row => startsWith row (name +:+ "="))
                (split "; " jar)) as [found |] eqn:Hfind.
    + apply List.find_some in Hfind as [_ Hfound].
      unfold startsWith in Hfound.
      apply prefix_split in Hfound as [rest ->].
      rewrite append_separator, nonempty_separator, split_char_sequences.
      apply sequences_second.
    + pose proof (List.find_none _ _ Hfind row Hin) as Hnone.
      simpl in Hnone. congruence.
Qed.

(** X2.  The value [getCookie] returns holds no [=]: a cookie value is cut
    at its first [=]. *)
Theorem getCookie_value_lacks_equals (name jar v : string) :
  getCookie name jar = Some v -> URLSearchParams.lacks "=" v = true.
Proof.
  unfold getCookie.
  destruct (List.find _ (split "; " jar)) as [row |]; [| discriminate].
  destruct (nonempty row); [| discriminate].
  rewrite split_char_sequences. intros Hnth.
  apply nth_error_In in Hnth.
  pose proof (sequences_pieces_lack "=" row) as Hall.
  rewrite List.Forall_forall in Hall. now apply Hall.
Qed.

Lemma getCookie_value_lacks_equals_witness :
  getCookie "token" "token=abc=def; theme=dark" = Some "abc"
  /\ URLSearchParams.lacks "=" "abc" = true.
Proof.
  split; [reflexivity |].
  apply (getCookie_value_lacks_equals "token" "token=abc=def; theme=dark").
  reflexivity.
Defined.

Lemma getCookie_row (name v : string) :
  URLSearchParams.lacks "=" name = true ->
  (if nonempty (name +:+ "=" +:+ v)
   then nth_error (split "=" (name +:+ "=" +:+ v)) 1
   else None)
  = Some (fst (URLSearchParams.cut "=" v)).
Proof.
  intros Hname.
  change (name +:+ "=" +:+ v) with (name +:+ String "=" v).
  rewrite nonempty_separator, split_char_sequences.
  rewrite (sequences_at_separator "=" name v Hname).
  apply sequences_head.
Qed.

Lemma startsWith_own_row (name v : string) :
  startsWith (name +:+ "=" +:+ v) (name +:+ "=") = true.
Proof.
  unfold startsWith.
  change (name +:+ "=" +:+ v) with (name +:+ String "=" v).
  rewrite <- (append_separator name v "="). apply prefix_app.
Qed.

(** X3.  In a jar whose first row is [name=v], with no [=] in the name
    and no [;] in the row, [getCookie(name)] is the part of [v] before its
    first [=], whatever rows follow; rows that follow under the same name
    are not looked at. *)
Theorem getCookie_first_row (name v rest : string) :
  URLSearchParams.lacks "=" name = true ->
  URLSearchParams.lacks ";" (name +:+ "=" +:+ v) = true ->
  getCookie name ((name +:+ "=" +:+ v) +:+ "; " +:+ rest)
  = Some (fst (URLSearchParams.cut "=" v))
  /\ getCookie name (name +:+ "=" +:+ v)
     = Some (fst (URLSearchParams.cut "=" v)).
Proof.
  intros Hname Hrow. unfold getCookie. split.
  - rewrite (split_rows_cons _ rest Hrow).
    cbn [List.find]. rewrite startsWith_own_row.
    now apply getCookie_row.
  - rewrite (split_rows_single _ Hrow).
    cbn [List.find]. rewrite startsWith_own_row.
    now apply getCookie_row.
Qed.

Lemma getCookie_first_row_witness :
  URLSearchParams.lacks "=" "token" = true
  /\ URLSearchParams.lacks ";" ("token" +:+ "=" +:+ "h.p.s") = true
  /\ getCookie "token" "token=h.p.s; token=other; theme=dark" = Some "h.p.s".
Proof.
  split; [reflexivity |]. split; [reflexivity |].
  exact (proj1 (getCookie_first_row "token" "h.p.s" "token=other; theme=dark"
                  eq_refl eq_refl)).
Defined.

(** X4.  A first row that does not start with [name=] is passed over:
    the answer is that of the rest of the jar. *)
Theorem getCookie_skips_row (name row rest : string) :
  URLSearchParams.lacks ";" row = true ->
  startsWith row (name +:+ "=") = false ->
  getCookie name (row +:+ "; " +:+ rest) = getCookie name rest.
Proof.
  intros Hrow Hother. unfold getCookie.
  rewrite (split_rows_cons _ rest Hrow).
  cbn [List.find]. now rewrite Hother.
Qed.

Lemma getCookie_skips_row_witness :
  URLSearchParams.lacks ";" "xtoken=1" = true
  /\ startsWith "xtoken=1" ("token" +:+ "=") = false
  /\ getCookie "token" "xtoken=1; token=h.p.s" = getCookie "token" "token=h.p.s".
Proof.
  split; [reflexivity |]. split; [reflexivity |].
  apply (getCookie_skips_row "token" "xtoken=1" "token=h.p.s"); reflexivity.
Defined.

(* ===================================================================== *)
(** * The role formatter: outcomes *)
(* ===================================================================== *)

Lemma roleLabel_in_labels (lowered : string) :
  In (roleLabel lowered) roleLabels.
Proof.
  unfold roleLabel, roleLabels.
  repeat match goal with
         | |- context [String.eqb lowered ?k] =>
             destruct (String.eqb lowered k); [simpl; tauto |]
         end.
  simpl. tauto.
Qed.

Lemma roleLabel_viewer (lowered : string) :
  roleLabel lowered = "Admin Viewer" <-> lowered = "proxy_admin_viewer".
Proof.
  split; [| now intros ->].
  unfold roleLabel.
  repeat match goal with
         | |- context [String.eqb lowered ?k] =>
             destruct (String.eqb_spec lowered k) as [E | _];
             [first [discriminate | intros _; exact E] |]
         end.
  discriminate.
Qed.

Lemma formatUserRole_not_string (v : JsValue) :
  truthy v = true -> isString v = false ->
  formatUserRole v = Raises TypeError.
Proof.
  intros Hv Hs. unfold formatUserRole. rewrite Hv. simpl.
  destruct v; try reflexivity. discriminate Hs.
Qed.

Lemma formatUserRole_viewer_string (v : JsValue) :
  formatUserRole v = Returns "Admin Viewer" ->
  exists s : string, v = JStr s /\ toLowerCase s = "proxy_admin_viewer".
Proof.
  unfold formatUserRole.
  destruct (truthy v) eqn:Hv; simpl; [| discriminate].
  destruct v; try discriminate.
  intros H. inversion H as [Hlabel].
  exists s. split; [reflexivity |]. now apply roleLabel_viewer.
Qed.

(** X5.  [formatUserRole] throws a [TypeError] exactly on a truthy value
    that is not a string.  When it returns, the label is
    ["Undefined Role"] for a falsy argument and one of the eight labels of
    the [switch] for a truthy one. *)
Theorem formatUserRole_outcomes (v : JsValue) :
  (formatUserRole v = Raises TypeError <->
   truthy v = true /\ isString v = false)
  /\ (forall label : string,
         formatUserRole v = Returns label ->
         (truthy v = false /\ label = "Undefined Role")
         \/ (truthy v = true /\ In label roleLabels)).
Proof.
  unfold formatUserRole. split.
  - destruct (truthy v) eqn:Hv; simpl.
    + destruct v; simpl; split; try discriminate; try (intros _; now split);
        try reflexivity; intros [_ H]; discriminate H.
    + split; [discriminate | intros [H _]; discriminate H].
  - intros label. destruct (truthy v) eqn:Hv; simpl.
    + destruct v; try discriminate.
      intros H. inversion H. right. split; [reflexivity |].
      apply roleLabel_in_labels.
    + intros H. inversion H. now left.
Qed.

Lemma formatUserRole_outcomes_witness :
  formatUserRole (JNum 7) = Raises TypeError
  /\ formatUserRole (JArr [JStr "proxy_admin"]) = Raises TypeError
  /\ In "Unknown Role" roleLabels.
Proof.
  split; [apply (proj1 (formatUserRole_outcomes (JNum 7))); now split |].
  split;
    [apply (proj1 (formatUserRole_outcomes (JArr [JStr "proxy_admin"])));
     now split |].
  destruct (proj2 (formatUserRole_outcomes (JStr "nobody")) "Unknown Role"
              eq_refl) as [[H _] | [_ H]]; [discriminate H | exact H].
Defined.

(** X6.  [formatUserRole] returns ["Admin Viewer"], the label the router
    tests for its redirect, exactly on a string that lowers to
    ["proxy_admin_viewer"]. *)
Theorem formatUserRole_admin_viewer (v : JsValue) :
  formatUserRole v = Returns "Admin Viewer" <->
  exists s : string, v = JStr s /\ toLowerCase s = "proxy_admin_viewer".
Proof.
  split; [apply formatUserRole_viewer_string |].
  intros [s [-> Hs]]. unfold formatUserRole.
  assert (Hne : nonempty s = true)
    by (destruct s; [discriminate Hs | reflexivity]).
  simpl. rewrite Hne. simpl. f_equal. now apply roleLabel_viewer.
Qed.

Lemma formatUserRole_admin_viewer_witness :
  formatUserRole (JStr "Proxy_Admin_Viewer") = Returns "Admin Viewer".
Proof.
  apply (proj2 (formatUserRole_admin_viewer (JStr "Proxy_Admin_Viewer"))).
  exists "Proxy_Admin_Viewer". split; reflexivity.
Defined.

(* ===================================================================== *)
(** * The token-decoding effect: every cell *)
(* ===================================================================== *)

Section TokenDecodingCells.

Variable jwtDecode : string -> Try JsValue.

(** X7.  The decoding effect changes the cell [page] in one case only: the
    payload's role is a string that lowers to ["proxy_admin_viewer"], and
    the cell then holds ["usage"]. *)
Theorem decodeEffect_page (tok : option string) (w : World) :
  let w' := worldOf (decodeEffect jwtDecode tok w) in
  page (state w') = page (state w)
  \/ (page (state w') = "usage"
      /\ exists (t : string) (decoded : JsValue) (s : string),
           tok = Some t
           /\ jwtDecode t = Returns decoded
           /\ get decoded "user_role" = JStr s
           /\ toLowerCase s = "proxy_admin_viewer").
Proof.
  intros w'. unfold w'. clear w'.
  decode_cases jwtDecode tok; try (left; reflexivity);
    right; (split; [reflexivity |]);
    apply String.eqb_eq in Hviewer; subst label;
    apply formatUserRole_viewer_string in Hformat as [s [Hs Hlow]];
    exists t, decoded, s; repeat split; assumption.
Qed.

Lemma formatUserRole_returns (v : JsValue) (label : string) :
  formatUserRole v = Returns label -> truthy v = true ->
  isString v = true /\ In label roleLabels /\ nonempty label = true.
Proof.
  intros Hfmt Hv. unfold formatUserRole in Hfmt. rewrite Hv in Hfmt.
  simpl in Hfmt. destruct v; try discriminate Hfmt.
  inversion Hfmt. split; [reflexivity |].
  split; [apply roleLabel_in_labels |].
  unfold roleLabel.
  repeat match goal with
         | |- context [String.eqb ?l ?k] =>
             destruct (String.eqb l k); [reflexivity |]
         end.
  reflexivity.
Qed.

(** X8.  The decoding effect throws in these cases only: the decoder
    rejects a non-empty token; the payload's role is truthy and not a
    string; the payload, logged because [user_email] or [login_method] is
    falsy, cannot be converted to a string; a truthy [login_method],
    compared with a string, cannot be converted to one. *)
Theorem decodeEffect_throws_iff (tok : option string) (w : World) :
  completed (decodeEffect jwtDecode tok w) = false <->
  exists t : string,
    tok = Some t /\ nonempty t = true
    /\ ((exists e, jwtDecode t = Raises e)
        \/ (exists decoded,
               jwtDecode t = Returns decoded
               /\ ((truthy (get decoded "user_role") = true
                    /\ isString (get decoded "user_role") = false)
                   \/ (truthy (get decoded "user_email") = false
                       /\ toStringThrows decoded = true)
                   \/ (truthy (get decoded "login_method") = false
                       /\ toStringThrows decoded = true)
                   \/ (truthy (get decoded "login_method") = true
                       /\ toStringThrows (get decoded "login_method")
                          = true)))).
Proof.
  rewrite (decodeEffect_completed jwtDecode). split.
  - destruct tok as [t |]; [| discriminate].
    destruct (nonempty t) eqn:Ht; [| discriminate].
    destruct (jwtDecode t) as [d | e] eqn:Hd.
    + intros H. apply orb_false_iff in H as [_ H].
      apply negb_false_iff in H.
      exists t. split; [reflexivity |]. split; [exact Ht |].
      right. exists d. split; [exact Hd |].
      apply orb_true_iff in H as [H | H].
      * left. unfold roleThrows in H.
        apply andb_true_iff in H as [H1 H2].
        apply negb_true_iff in H2. now split.
      * right. unfold coercionThrows in H.
        apply orb_true_iff in H as [H | H].
        -- apply andb_true_iff in H as [H1 H2].
           apply negb_true_iff in H1. left. now split.
        -- destruct (truthy (get d "login_method")) eqn:Hl;
             right; [right | left]; now split.
    + intros _. exists t. split; [reflexivity |]. split; [exact Ht |].
      left. exists e. exact Hd.
  - intros (t & -> & Ht & [[e He] | (d & Hd & Hc)]).
    + now rewrite Ht, He.
    + rewrite Ht, Hd.
      assert (Hp : truthy d = true).
      { destruct Hc as [[H _] | [[_ H] | [[_ H] | [H _]]]];
          eauto using truthy_field_object, toStringThrows_truthy. }
      rewrite Hp. simpl. apply negb_false_iff.
      unfold roleThrows, coercionThrows.
      destruct Hc as [[H1 H2] | [[H1 H2] | [[H1 H2] | [H1 H2]]]];
        rewrite ?H1, ?H2; simpl; rewrite ?orb_true_r; reflexivity.
Qed.

(** X9.  When the decoder rejects the token, the effect throws the
    decoder's exception before any setter has run: the world is as it
    was. *)
Theorem decodeEffect_invalid_token (t : string) (e : Exn) (w : World) :
  nonempty t = true ->
  jwtDecode t = Raises e ->
  decodeEffect jwtDecode (Some t) w = Threw e w.
Proof.
  intros Ht He. unfold decodeEffect. rewrite Ht. cbn [negb].
  eff_unfold. now rewrite He.
Qed.

(** X10.  When the payload's role is truthy and not a string, the effect
    throws a [TypeError] after two setters have run: [accessToken] and
    [disabledPersonalKeyCreation] hold the payload's fields, every other
    cell and the call log are as they were. *)
Theorem decodeEffect_type_error (t : string) (decoded : JsValue) (w : World) :
  nonempty t = true ->
  jwtDecode t = Returns decoded ->
  truthy (get decoded "user_role") = true ->
  isString (get decoded "user_role") = false ->
  decodeEffect jwtDecode (Some t) w =
  Threw TypeError
    {| browser := browser w;
       state :=
         {| userRole := userRole (state w);
            premiumUser := premiumUser (state w);
            disabledPersonalKeyCreation :=
              get decoded "disabled_non_admin_personal_key_creation";
            userEmail := userEmail (state w);
            showSSOBanner := showSSOBanner (state w);
            token := token (state w);
            page := page (state w);
            accessToken := get decoded "key" |};
       calls := calls w |}.
Proof.
  intros Ht Hd Hrole Hstr. unfold decodeEffect. rewrite Ht. cbn [negb].
  eff_unfold. rewrite Hd, (truthy_field_object _ _ Hrole), Hrole.
  eff_norm.
  now rewrite (formatUserRole_not_string _ Hrole Hstr).
Qed.

(** X11.  With no token, an empty token, or a payload that is falsy
    ([null], [0], [""], [false]) the effect completes and leaves the world
    as it was. *)
Theorem decodeEffect_nothing_to_decode (tok : option string) (w : World) :
  truthy_opt tok = false
  \/ (exists (t : string) (decoded : JsValue),
         tok = Some t /\ jwtDecode t = Returns decoded
         /\ truthy decoded = false) ->
  decodeEffect jwtDecode tok w = Completed tt w.
Proof.
  intros [Hfalsy | (t & decoded & -> & Hd & Hpayload)].
  - destruct tok as [t |]; [| reflexivity].
    simpl in Hfalsy. unfold decodeEffect. now rewrite Hfalsy.
  - unfold decodeEffect. destruct (nonempty t); [| reflexivity].
    cbn [negb]. eff_unfold. now rewrite Hd, Hpayload.
Qed.

(** X12.  The effect never clears [premiumUser], [userEmail] or
    [userRole]: a cell that was truthy before it is truthy after it.  It
    never writes the cell [token]. *)
Theorem decodeEffect_keeps_cells (tok : option string) (w : World) :
  let w' := worldOf (decodeEffect jwtDecode tok w) in
  (truthy (premiumUser (state w)) = true ->
   truthy (premiumUser (state w')) = true)
  /\ (truthy (userEmail (state w)) = true ->
      truthy (userEmail (state w')) = true)
  /\ (nonempty (userRole (state w)) = true ->
      nonempty (userRole (state w')) = true)
  /\ token (state w') = token (state w).
Proof.
  intros w'. unfold w'. clear w'.
  decode_cases jwtDecode tok; repeat split; try (intros; assumption).
  all: intros _;
    now destruct (formatUserRole_returns _ _ Hformat Hrole) as (_ & _ & H).
Qed.

(** X13.  The effect issues no fetch.  It calls the networking module at
    most once, to set the header name, and only with a truthy name; the
    calls made before it are kept. *)
Theorem decodeEffect_calls (tok : option string) (w : World) :
  let w' := worldOf (decodeEffect jwtDecode tok w) in
  calls w' = calls w
  \/ exists name : JsValue,
       truthy name = true
       /\ calls w' = calls w ++ [SetGlobalLitellmHeaderName name].
Proof.
  intros w'. unfold w'. clear w'.
  decode_cases jwtDecode tok; try (left; reflexivity).
  all: right; exists (get decoded "auth_header_name"); now split.
Qed.

(** X14.  The role the effect stores is one of the eight labels of the
    [switch]; ["Undefined Role"], which [formatUserRole] returns on a falsy
    argument, is never stored, because the effect formats truthy roles
    only. *)
Theorem decodeEffect_userRole (tok : option string) (w : World) :
  let w' := worldOf (decodeEffect jwtDecode tok w) in
  (userRole (state w') = userRole (state w)
   \/ In (userRole (state w')) roleLabels)
  /\ (userRole (state w) <> "Undefined Role" ->
      userRole (state w') <> "Undefined Role").
Proof.
  intros w'. unfold w'. clear w'.
  decode_cases jwtDecode tok; split; try (left; reflexivity);
    try (intros; assumption).
  all: destruct (formatUserRole_returns _ _ Hformat Hrole) as (_ & Hin & _).
  all: try (right; exact Hin).
  all: intros _ ->; revert Hin; unfold roleLabels; simpl;
    intros H; repeat (destruct H as [H | H]; [discriminate H |]);
    destruct H.
Qed.

(** X15.  Running the effect twice on the same token leaves the cells
    and the URL as one run leaves them. *)
Theorem decodeEffect_idempotent (tok : option string) (w : World) :
  let once := worldOf (decodeEffect jwtDecode tok w) in
  let twice :=
    worldOf ((decodeEffect jwtDecode tok;; decodeEffect jwtDecode tok) w) in
  state twice = state once /\ browser twice = browser once.
Proof.
  intros once twice. unfold once, twice. clear once twice.
  unfold mbind at 1. unfold Eff_bind at 1.
  decode_cases jwtDecode tok; split; reflexivity.
Qed.

(** X16.  When the effect completes on a payload whose [login_method] is
    a non-empty string, the banner cell tells whether that string is
    ["username_password"]; with a falsy [login_method] the cell is as it
    was. *)
Theorem decodeEffect_sso_banner (t : string) (decoded : JsValue) (w : World) :
  nonempty t = true ->
  jwtDecode t = Returns decoded ->
  completed (decodeEffect jwtDecode (Some t) w) = true ->
  let w' := worldOf (decodeEffect jwtDecode (Some t) w) in
  (forall m : string,
      get decoded "login_method" = JStr m -> m <> EmptyString ->
      showSSOBanner (state w') = String.eqb m "username_password")
  /\ (truthy (get decoded "login_method") = false ->
      showSSOBanner (state w') = showSSOBanner (state w)).
Proof.
  intros Ht Hd. unfold decodeEffect. rewrite Ht. cbn [negb].
  eff_unfold. rewrite Hd.
  destruct (truthy decoded) eqn:Hpayload; eff_norm.
  - destruct (truthy (get decoded "user_role")) eqn:Hrole; eff_norm;
      [destruct (formatUserRole (get decoded "user_role"))
         as [label | e] eqn:Hformat; eff_norm;
       [destruct (String.eqb label "Admin Viewer"); eff_norm |] |].
    all: split_on (truthy (get decoded "user_email")) ident:(Hemail).
    all: split_on (toStringThrows decoded) ident:(Htext).
    all: split_on (truthy (get decoded "login_method")) ident:(Hlogin).
    all: split_on (toStringThrows decoded) ident:(Htext).
    all: split_on (toStringThrows (get decoded "login_method"))
           ident:(Hlogintext).
    all: split_on (truthy (get decoded "premium_user")) ident:(Hpremium).
    all: split_on (truthy (get decoded "auth_header_name")) ident:(Hheader).
    all: intros Hdone; try discriminate Hdone; split.
    all: try (intros m Hm Hne; rewrite Hm in *; simpl in *;
              first [reflexivity
                    | rewrite (nonempty_true m Hne) in Hlogin;
                      discriminate Hlogin]).
    all: try (intros; congruence); try reflexivity.
  - intros _. split; [| reflexivity].
    intros m Hm Hne. destruct decoded; simpl in *; discriminate.
Qed.

(** ** Whole sessions *)

Lemma session_steps (b : Browser) :
  session jwtDecode b =
  match decodeEffect jwtDecode (getCookie "token" (cookie b))
          (worldOf (firstCommit jwtDecode (mount b))) with
  | Completed _ w =>
      refDataEffect (accessToken (state w)) (userID w) (userRole (state w)) w
  | Threw e w => Threw e w
  end.
Proof. reflexivity. Qed.

(** X17.  Without a token in the cookie jar, or with an empty one, the
    session completes without decoding and without a call: the world is
    the mounted one with the cookie's value in the cell [token]. *)
Theorem session_without_token (b : Browser) :
  truthy_opt (getCookie "token" (cookie b)) = false ->
  session jwtDecode b = Completed tt (worldOf (cookieEffect (mount b)))
  /\ calls (worldOf (session jwtDecode b)) = [].
Proof.
  intros Hfalsy. rewrite session_steps, firstCommit_mount.
  destruct (getCookie "token" (cookie b)) as [t |] eqn:Hcookie.
  - simpl in Hfalsy. unfold decodeEffect. rewrite Hfalsy. cbn [negb].
    unfold cookieEffect. eff_unfold. cbn. rewrite Hcookie.
    split; reflexivity.
  - unfold cookieEffect. eff_unfold. cbn. rewrite Hcookie.
    split; reflexivity.
Qed.

(** X18.  With a token the decoder rejects, the session throws the
    decoder's exception; nothing was fetched and no cell but [token] was
    written. *)
Theorem session_invalid_token (b : Browser) (t : string) (e : Exn) :
  getCookie "token" (cookie b) = Some t ->
  nonempty t = true ->
  jwtDecode t = Raises e ->
  session jwtDecode b = Threw e (worldOf (cookieEffect (mount b)))
  /\ calls (worldOf (session jwtDecode b)) = [].
Proof.
  intros Hcookie Ht He. rewrite session_steps, firstCommit_mount, Hcookie.
  unfold decodeEffect. rewrite Ht. cbn [negb]. eff_unfold. rewrite He.
  unfold cookieEffect. eff_unfold. cbn. rewrite Hcookie.
  split; reflexivity.
Qed.

(** X19.  Every call a session makes carries what its guard tested: a
    truthy access token, and for the fetches of models and teams a
    non-empty user identifier and role.  The role these fetches carry is a
    label of [formatUserRole], and the identifier is the URL's [userID]. *)
Theorem session_calls_guarded (b : Browser) :
  let cs := calls (worldOf (session jwtDecode b)) in
  Forall (fun c => guarded c = true) cs
  /\ (forall (u : option string) (r : string) (a : JsValue),
         In (FetchUserModels u r a) cs \/ In (FetchTeams a u r) cs ->
         In r roleLabels
         /\ u = URLSearchParams.get "userID" (URLSearchParams.parse (query b))).
Proof.
  intros cs. unfold cs. clear cs.
  rewrite session_steps, firstCommit_mount.
  remember (getCookie "token" (cookie b)) as tok eqn:Htok. clear Htok.
  unfold userID, useSearchParams.
  decode_cases jwtDecode tok.
  all: unfold refDataEffect; eff_unfold; eff_norm.
  all: repeat match goal with
         | |- context [truthy ?v && _] =>
             destruct (truthy v) eqn:?; eff_norm
         | |- context [truthy_opt ?v && _] =>
             destruct (truthy_opt v) eqn:?; eff_norm
         | |- context [if nonempty ?v then _ else _] =>
             destruct (nonempty v) eqn:?; eff_norm
         | |- context [if truthy ?v then _ else _] =>
             destruct (truthy v) eqn:?; eff_norm
         end.
  all: split;
    [ repeat constructor; cbn [guarded];
      repeat match goal with H : _ = true |- _ => rewrite H end;
      try reflexivity
    | intros u r a [Hin | Hin]; cbn in Hin;
      repeat (destruct Hin as [Hin | Hin];
              [try discriminate Hin; inversion Hin; subst | ]);
      try (destruct Hin);
      (split; [| reflexivity]);
      first [ now destruct (formatUserRole_returns _ _ Hformat Hrole)
                as (_ & Hl & _)
            | discriminate ] ].
Qed.

(** ** The effect and the view *)

(** X20.  A viewer-admin token puts the usage panel on screen: when the
    URL has no invitation and the decoding effect completes, the render
    that follows is the dashboard with ["usage"] selected in the sidebar
    and the panel [Usage], whatever page was shown before.  When a
    conversion to a string throws in the effect, the tree is unmounted and
    nothing is shown. *)
Theorem viewer_admin_sees_usage (w : World) (t : string)
    (decoded : JsValue) :
  token (state w) = Some t ->
  nonempty t = true ->
  jwtDecode t = Returns decoded ->
  get decoded "user_role" = JStr "proxy_admin_viewer" ->
  sidebarMounted w = true ->
  screen (tokenCommit jwtDecode w) =
  if coercionThrows decoded then Blank
  else Shows (DashboardView "usage" Usage).
Proof.
  intros Hcell Ht Hd Hrole Hmounted.
  rewrite sidebarMounted_invitation in Hmounted.
  apply negb_true_iff in Hmounted.
  unfold tokenCommit. rewrite Hcell.
  pose proof (decodeEffect_completed_string_role jwtDecode t
                "proxy_admin_viewer" decoded w Ht Hd Hrole) as Hdone.
  pose proof (decodeEffect_viewer jwtDecode t decoded w Ht Hd Hrole)
    as Hpage.
  unfold screen.
  destruct (coercionThrows decoded); cbn [negb] in Hdone.
  - now rewrite (rendered_threw _ Hdone).
  - rewrite (rendered_completed _ Hdone).
    unfold render, invitation_id, useSearchParams.
    rewrite decodeEffect_browser, Hpage.
    unfold invitation_id, useSearchParams in Hmounted.
    now rewrite Hmounted.
Qed.

(** X21.  With a non-empty [invitation_id] in the URL the component shows
    the invitation view, and it still does after a decoding effect that
    completes, whatever it stores, and after the reference-data effect.  A
    decoding effect that throws leaves nothing on the screen. *)
Theorem invitation_view_persists (w : World) (tok : option string)
    (a : JsValue) (u : option string) (r : string) :
  truthy_opt (invitation_id w) = true ->
  render w = InvitationView
  /\ screen (decodeEffect jwtDecode tok w) =
     (if completed (decodeEffect jwtDecode tok w)
      then Shows InvitationView else Blank)
  /\ screen (refDataEffect a u r w) = Shows InvitationView.
Proof.
  intros Hinv.
  assert (Hdec : invitation_id (worldOf (decodeEffect jwtDecode tok w))
                 = invitation_id w)
    by (unfold invitation_id, useSearchParams;
        now rewrite decodeEffect_browser).
  split; [unfold render; now rewrite Hinv |].
  split.
  - unfold screen.
    destruct (completed (decodeEffect jwtDecode tok w)) eqn:Hdone.
    + rewrite (rendered_completed _ Hdone). unfold render.
      now rewrite Hdec, Hinv.
    + now rewrite (rendered_threw _ Hdone).
  - assert (Hdone : completed (refDataEffect a u r w) = true)
      by (unfold refDataEffect; eff_unfold;
          destruct (truthy a), (truthy_opt u), (nonempty r); reflexivity).
    assert (Href : invitation_id (worldOf (refDataEffect a u r w))
                   = invitation_id w)
      by (unfold invitation_id, useSearchParams, refDataEffect; eff_unfold;
          destruct (truthy a), (truthy_opt u), (nonempty r); reflexivity).
    unfold screen. rewrite (rendered_completed _ Hdone). unfold render.
    now rewrite Href, Hinv.
Qed.

End TokenDecodingCells.

(* ===================================================================== *)
(** * The reference-data effect, run again *)
(* ===================================================================== *)

(** X22.  The effect keeps no record of what it has requested: run twice
    with the same values it makes its calls twice, in the same order, and
    writes no cell. *)
Theorem refDataEffect_reissues (a : JsValue) (u : option string) (r : string)
    (w : World) :
  let issued :=
    (if truthy a && truthy_opt u && nonempty r
     then [FetchUserModels u r a; FetchTeams a u r] else [])
    ++ (if truthy a then [FetchOrganizations a] else []) in
  let w' := worldOf ((refDataEffect a u r;; refDataEffect a u r) w) in
  calls w' = calls w ++ issued ++ issued
  /\ state w' = state w
  /\ browser w' = browser w.
Proof.
  intros issued w'. unfold w', issued, refDataEffect. eff_unfold.
  destruct (truthy a), (truthy_opt u), (nonempty r); cbn;
    rewrite <- ?app_assoc, ?app_nil_r; repeat split; reflexivity.
Qed.

(* ===================================================================== *)
(** * The page router: the URL it writes *)
(* ===================================================================== *)

Lemma filter_named_other (name : string) (params : URLSearchParams.t) :
  List.filter (URLSearchParams.named name)
    (List.filter (fun p => negb (URLSearchParams.named name p)) params) = [].
Proof.
  induction params as [| p rest IH]; simpl; [reflexivity |].
  destruct (URLSearchParams.named name p) eqn:E; simpl;
    [exact IH | now rewrite E].
Qed.

Lemma occurrences_set (name value : string) (params : URLSearchParams.t) :
  occurrences name (URLSearchParams.set name value params) = 1.
Proof.
  unfold occurrences.
  assert (Hsame : forall x, URLSearchParams.named name (name, x) = true)
    by (intros x; unfold URLSearchParams.named; simpl;
        apply String.eqb_refl).
  induction params as [| [k v] rest IH]; simpl.
  - now rewrite Hsame.
  - destruct (String.eqb_spec k name) as [-> | Hk]; simpl.
    + now rewrite Hsame, filter_named_other.
    + assert (Hk' : URLSearchParams.named name (k, v) = false)
        by (unfold URLSearchParams.named; simpl; now apply String.eqb_neq).
      now rewrite Hk'.
Qed.

Lemma set_set (name x y : string) (params : URLSearchParams.t) :
  URLSearchParams.set name y (URLSearchParams.set name x params)
  = URLSearchParams.set name y params.
Proof.
  induction params as [| [k v] rest IH]; simpl.
  - now rewrite String.eqb_refl.
  - destruct (String.eqb_spec k name) as [-> | Hk]; simpl.
    + rewrite String.eqb_refl. now rewrite filter_idempotent.
    + destruct (String.eqb_spec k name); [congruence |]. now rewrite IH.
Qed.

(** X23.  The URL [updatePage] writes reads back as the list it
    serialized, whatever bytes the names and values of the parameters
    hold: the parameters before the call with [page] set to the new page,
    converted to a scalar value string as [set] receives it, hence to the
    new page itself when it has no surrogate outside a pair. *)
Theorem updatePage_url_reads_back (searchParams : URLSearchParams.t)
    (X : string) (w : World) :
  URLSearchParams.parse
    (query (browser (worldOf (updatePage searchParams X w))))
  = URLSearchParams.set "page" (URLSearchParams.toUSVString X) searchParams
  /\ (URLSearchParams.toUSVString X = X ->
      URLSearchParams.parse
        (query (browser (worldOf (updatePage searchParams X w))))
      = URLSearchParams.set "page" X searchParams).
Proof.
  assert (Hback : URLSearchParams.parse
                    (query (browser (worldOf (updatePage searchParams X w))))
                  = URLSearchParams.set "page"
                      (URLSearchParams.toUSVString X) searchParams).
  { change (query (browser (worldOf (updatePage searchParams X w))))
      with (URLSearchParams.toString
              (URLSearchParams.set "page" (URLSearchParams.toUSVString X)
                 searchParams)).
    apply parse_toString. }
  split; [exact Hback |].
  intros Hwell. now rewrite Hback, Hwell.
Qed.

Lemma updatePage_url_reads_back_witness :
  URLSearchParams.toUSVString "a b&c" = "a b&c"
  /\ URLSearchParams.parse
       (query (browser (worldOf (updatePage [("q", "x=y"); ("page", "teams")]
                                  "a b&c" (mount sampleBrowser)))))
     = [("q", "x=y"); ("page", "a b&c")].
Proof.
  split; [reflexivity |].
  exact (proj2 (updatePage_url_reads_back [("q", "x=y"); ("page", "teams")]
                  "a b&c" (mount sampleBrowser)) eq_refl).
Defined.

(** X24.  After [updatePage] the URL has one [page] parameter, however
    many it had before. *)
Theorem updatePage_single_page_parameter (searchParams : URLSearchParams.t)
    (X : string) (w : World) :
  occurrences "page" (useSearchParams (worldOf (updatePage searchParams X w)))
  = 1.
Proof.
  rewrite updatePage_searchParams. apply occurrences_set.
Qed.

(** X25.  Two page changes in a row leave the parameters one change to
    the second page would leave (the page as [set] receives it, a scalar
    value string), the second page in the cell, and two more entries in
    the history: the URL of the first change on top of the URL before
    it. *)
Theorem sidebarSetPage_twice (X Y : string) (w : World) :
  let w1 := worldOf (sidebarSetPage X w) in
  let w2 := worldOf (sidebarSetPage Y w1) in
  useSearchParams w2
  = URLSearchParams.set "page" (URLSearchParams.toUSVString Y)
      (useSearchParams w)
  /\ (URLSearchParams.toUSVString Y = Y ->
      useSearchParams w2 = URLSearchParams.set "page" Y (useSearchParams w))
  /\ page (state w2) = Y
  /\ history (browser w2)
     = query (browser w1) :: query (browser w) :: history (browser w).
Proof.
  intros w1 w2.
  assert (Hurl : useSearchParams w2
                 = URLSearchParams.set "page" (URLSearchParams.toUSVString Y)
                     (useSearchParams w))
    by (unfold w2, w1; now rewrite !sidebarSetPage_searchParams, set_set).
  split; [exact Hurl |].
  split; [intros Hwell; now rewrite Hurl, Hwell |].
  split; reflexivity.
Qed.

Lemma sidebarSetPage_twice_witness :
  let w := mount sampleBrowser in
  let w2 := worldOf (sidebarSetPage "logs"
                       (worldOf (sidebarSetPage "teams" w))) in
  URLSearchParams.toUSVString "logs" = "logs"
  /\ useSearchParams w2 = [("userID", "u1"); ("page", "logs")].
Proof.
  intros w w2. split; [reflexivity |].
  exact (proj1 (proj2 (sidebarSetPage_twice "teams" "logs" w)) eq_refl).
Defined.

Lemma allBytes_app (P : ascii -> bool) (a b : string) :
  allBytes P (a +:+ b) = allBytes P a && allBytes P b.
Proof.
  induction a as [| x a IH]; [reflexivity |].
  rewrite append_cons. cbn [allBytes]. now rewrite IH, andb_assoc.
Qed.

Lemma encodeByte_queryBytes (c : ascii) :
  allBytes queryByte (URLSearchParams.encodeByte c) = true.
Proof. each_byte c; reflexivity. Qed.

Lemma encode_queryBytes (s : string) :
  allBytes queryByte (URLSearchParams.encode s) = true.
Proof.
  induction s as [| c s IH]; [reflexivity |].
  cbn [URLSearchParams.encode].
  now rewrite allBytes_app, encodeByte_queryBytes, IH.
Qed.

Lemma toString_queryBytes (params : URLSearchParams.t) :
  allBytes queryByte (URLSearchParams.toString params) = true.
Proof.
  unfold URLSearchParams.toString.
  induction params as [| p rest IH]; [reflexivity |].
  assert (Hp : allBytes queryByte (URLSearchParams.encodePair p) = true).
  { unfold URLSearchParams.encodePair.
    rewrite !allBytes_app, !encode_queryBytes. reflexivity. }
  destruct rest as [| q rest']; [exact Hp |].
  change (URLSearchParams.joinAmp (map URLSearchParams.encodePair (p :: q :: rest')))
    with (URLSearchParams.encodePair p +:+ "&"
          +:+ URLSearchParams.joinAmp (map URLSearchParams.encodePair (q :: rest'))).
  rewrite !allBytes_app, Hp, IH. reflexivity.
Qed.

(** X26.  The query [updatePage] writes holds only bytes a URL keeps as
    they are in its query: ASCII letters and digits, [*], [-], [.], [_],
    [+], [%], [=] and [&].  No [#], no space and no byte above 127 reaches
    the URL, whatever the page name and the parameters hold. *)
Theorem updatePage_query_bytes (searchParams : URLSearchParams.t)
    (X : string) (w : World) :
  allBytes queryByte
    (query (browser (worldOf (updatePage searchParams X w)))) = true.
Proof.
  change (query (browser (worldOf (updatePage searchParams X w))))
    with (URLSearchParams.toString
            (URLSearchParams.set "page" (URLSearchParams.toUSVString X)
               searchParams)).
  apply toString_queryBytes.
Qed.

(** X27.  The cell [page] never starts empty: it starts as ["api-keys"]
    or as the URL's first [page] parameter, and an empty parameter
    ([?page=]) counts as none. *)
Theorem initialPage_never_empty (searchParams : URLSearchParams.t) :
  nonempty (initialPage searchParams) = true
  /\ (initialPage searchParams = "api-keys"
      \/ URLSearchParams.get "page" searchParams
         = Some (initialPage searchParams))
  /\ (URLSearchParams.get "page" searchParams = Some EmptyString ->
      initialPage searchParams = "api-keys").
Proof.
  unfold initialPage.
  destruct (URLSearchParams.get "page" searchParams) as [p |].
  - destruct (nonempty p) eqn:Hp.
    + split; [exact Hp |]. split; [now right |].
      intros H. inversion H. subst p. discriminate Hp.
    + split; [reflexivity |]. split; [now left | reflexivity].
  - split; [reflexivity |]. split; [now left | reflexivity].
Qed.

Lemma initialPage_never_empty_witness :
  URLSearchParams.get "page" (URLSearchParams.parse "userID=u1&page=")
  = Some EmptyString
  /\ initialPage (URLSearchParams.parse "userID=u1&page=") = "api-keys".
Proof.
  split; [reflexivity |].
  apply (proj2 (proj2 (initialPage_never_empty
                         (URLSearchParams.parse "userID=u1&page=")))).
  reflexivity.
Defined.

(** X28.  The chain of conditionals is the table of known pages: a panel
    other than [Usage] is selected exactly by the identifier the table
    pairs it with, in that exact spelling and case. *)
Theorem selectPanel_table (X : string) (P : Panel) :
  P <> Usage ->
  (selectPanel X = P <-> In (X, P) knownPages).
Proof.
  intros Hnot. split; [| apply selectPanel_known].
  unfold selectPanel.
  repeat match goal with
         | |- context [String.eqb X ?k] =>
             destruct (String.eqb_spec X k) as [-> | _];
             [intros <-; unfold knownPages; simpl; tauto |]
         end.
  intros H. congruence.
Qed.

Lemma selectPanel_table_witness :
  Teams <> Usage
  /\ selectPanel "teams" = Teams
  /\ ~ In ("Teams", Teams) knownPages
  /\ selectPanel "Teams" = Usage.
Proof.
  split; [discriminate |].
  split; [apply (proj2 (selectPanel_table "teams" Teams ltac:(discriminate)));
          unfold knownPages; simpl; tauto |].
  split; [| reflexivity].
  intros Hin.
  apply (proj2 (selectPanel_table "Teams" Teams ltac:(discriminate))) in Hin.
  discriminate Hin.
Defined.

(* ===================================================================== *)
(** * The properties on sample sessions *)
(* ===================================================================== *)

Lemma getCookie_found_iff_witness :
  exists v, getCookie "token" "theme=dark; token=" = Some v.
Proof.
  apply (proj2 (getCookie_found_iff "token" "theme=dark; token=")).
  exists "token=". split; [simpl; tauto | reflexivity].
Defined.

Lemma decodeEffect_throws_iff_witness :
  completed (decodeEffect (decoderOf malformedPayload) (Some "h.p.s")
               (mount sampleBrowser)) = false.
Proof.
  apply (proj2 (decodeEffect_throws_iff (decoderOf malformedPayload)
                  (Some "h.p.s") (mount sampleBrowser))).
  exists "h.p.s". split; [reflexivity |]. split; [reflexivity |].
  right. exists malformedPayload. split; [reflexivity |].
  left. split; reflexivity.
Defined.

Lemma decodeEffect_invalid_token_witness :
  sampleDecoder "garbage" = Raises InvalidTokenError
  /\ decodeEffect sampleDecoder (Some "garbage") (mount sampleBrowser)
     = Threw InvalidTokenError (mount sampleBrowser).
Proof.
  split; [reflexivity |].
  apply (decodeEffect_invalid_token sampleDecoder "garbage"); reflexivity.
Defined.

Lemma decodeEffect_type_error_witness :
  let w := worldOf (decodeEffect (decoderOf malformedPayload) (Some "h.p.s")
                      (mount sampleBrowser)) in
  truthy (get malformedPayload "user_role") = true
  /\ isString (get malformedPayload "user_role") = false
  /\ accessToken (state w) = JStr "sk-5678"
  /\ userRole (state w) = "".
Proof.
  intros w. split; [reflexivity |]. split; [reflexivity |].
  unfold w.
  rewrite (decodeEffect_type_error (decoderOf malformedPayload) "h.p.s"
             malformedPayload (mount sampleBrowser)
             eq_refl eq_refl eq_refl eq_refl).
  split; reflexivity.
Defined.

Lemma decodeEffect_nothing_to_decode_witness :
  truthy_opt (Some "") = false
  /\ decodeEffect sampleDecoder (Some "") (mount sampleBrowser)
     = Completed tt (mount sampleBrowser)
  /\ decodeEffect (decoderOf JNull) (Some "h.p.s") (mount sampleBrowser)
     = Completed tt (mount sampleBrowser).
Proof.
  split; [reflexivity |]. split.
  - apply (decodeEffect_nothing_to_decode sampleDecoder (Some "")).
    now left.
  - apply (decodeEffect_nothing_to_decode (decoderOf JNull) (Some "h.p.s")).
    right. exists "h.p.s", JNull. repeat split; reflexivity.
Defined.

Lemma decodeEffect_keeps_cells_witness :
  let w := worldOf (decodeEffect (decoderOf memberPayload) (Some "a.b.c")
                      (mount sampleBrowser)) in
  let w' := worldOf (decodeEffect sampleDecoder (Some "h.p.s") w) in
  truthy (premiumUser (state w)) = true
  /\ get viewerPayload "premium_user" = JUndefined
  /\ truthy (premiumUser (state w')) = true.
Proof.
  intros w w'. split; [reflexivity |]. split; [reflexivity |].
  apply (proj1 (decodeEffect_keeps_cells sampleDecoder (Some "h.p.s") w)).
  reflexivity.
Defined.

Lemma decodeEffect_userRole_witness :
  let w := mount sampleBrowser in
  userRole (state w) <> "Undefined Role"
  /\ userRole (state (worldOf (decodeEffect (decoderOf memberPayload)
                                 (Some "a.b.c") w)))
     <> "Undefined Role".
Proof.
  intros w. split; [discriminate |].
  apply (proj2 (decodeEffect_userRole (decoderOf memberPayload)
                  (Some "a.b.c") w)).
  discriminate.
Defined.

Lemma decodeEffect_sso_banner_witness :
  let w := mount sampleBrowser in
  get memberPayload "login_method" = JStr "sso"
  /\ showSSOBanner (state w) = true
  /\ showSSOBanner (state (worldOf (decodeEffect (decoderOf memberPayload)
                                      (Some "a.b.c") w))) = false.
Proof.
  intros w. split; [reflexivity |]. split; [reflexivity |].
  apply (proj1 (decodeEffect_sso_banner (decoderOf memberPayload) "a.b.c"
                  memberPayload w eq_refl eq_refl eq_refl) "sso").
  - reflexivity.
  - discriminate.
Defined.

Lemma session_without_token_witness :
  let b := mkBrowser "theme=dark" "page=models" [] in
  truthy_opt (getCookie "token" (cookie b)) = false
  /\ session sampleDecoder b = Completed tt (mount b).
Proof.
  intros b. split; [reflexivity |].
  exact (proj1 (session_without_token sampleDecoder b eq_refl)).
Defined.

Lemma session_invalid_token_witness :
  let b := mkBrowser "token=garbage" "page=models" [] in
  getCookie "token" (cookie b) = Some "garbage"
  /\ sampleDecoder "garbage" = Raises InvalidTokenError
  /\ calls (worldOf (session sampleDecoder b)) = [].
Proof.
  intros b. split; [reflexivity |]. split; [reflexivity |].
  exact (proj2 (session_invalid_token sampleDecoder b "garbage"
                  InvalidTokenError eq_refl eq_refl eq_refl)).
Defined.

Lemma session_calls_guarded_witness :
  let cs := calls (worldOf (session (decoderOf memberPayload) sampleBrowser)) in
  In (FetchTeams (JStr "sk-9012") (Some "u1") "Internal User") cs
  /\ In "Internal User" roleLabels.
Proof.
  intros cs.
  assert (Hcs : cs =
                [ SetGlobalLitellmHeaderName (JStr "X-Litellm-Key");
                  FetchUserModels (Some "u1") "Internal User" (JStr "sk-9012");
                  FetchTeams (JStr "sk-9012") (Some "u1") "Internal User";
                  FetchOrganizations (JStr "sk-9012") ])
    by (vm_compute; reflexivity).
  assert (Hin : In (FetchTeams (JStr "sk-9012") (Some "u1") "Internal User")
                  cs)
    by (rewrite Hcs; right; right; left; reflexivity).
  split; [exact Hin |].
  exact (proj1 (proj2 (session_calls_guarded (decoderOf memberPayload)
                         sampleBrowser)
                  (Some "u1") "Internal User" (JStr "sk-9012")
                  (or_intror Hin))).
Defined.

Lemma viewer_admin_sees_usage_witness :
  let w := worldOf (firstCommit sampleDecoder (mount sampleBrowser)) in
  render w = DashboardView "models" ModelDashboard
  /\ sidebarMounted w = true
  /\ coercionThrows viewerPayload = false
  /\ screen (tokenCommit sampleDecoder w)
     = Shows (DashboardView "usage" Usage).
Proof.
  intros w. split; [reflexivity |]. split; [reflexivity |].
  split; [reflexivity |].
  exact (viewer_admin_sees_usage sampleDecoder w "h.p.s" viewerPayload
           eq_refl eq_refl eq_refl eq_refl eq_refl).
Defined.

Lemma invitation_view_persists_witness :
  let w := worldOf (firstCommit sampleDecoder (mount invitationBrowser)) in
  truthy_opt (invitation_id w) = true
  /\ page (state (worldOf (tokenCommit sampleDecoder w))) = "usage"
  /\ completed (decodeEffect sampleDecoder (Some "h.p.s") w) = true
  /\ screen (decodeEffect sampleDecoder (Some "h.p.s") w)
     = Shows InvitationView
  /\ screen (refDataEffect JNull None "" w) = Shows InvitationView.
Proof.
  intros w. split; [reflexivity |]. split; [reflexivity |].
  assert (Hdone : completed (decodeEffect sampleDecoder (Some "h.p.s") w)
                  = true) by (vm_compute; reflexivity).
  split; [exact Hdone |].
  destruct (invitation_view_persists sampleDecoder w (Some "h.p.s")
              JNull None "" eq_refl) as (_ & Hdecode & Hfetch).
  rewrite Hdone in Hdecode.
  split; [exact Hdecode | exact Hfetch].
Defined.
